(** * AQI forecasting backend

    A shallow embedding of [backend/main.py] and [backend/model_loader.py]:
    the safe numeric coercion [_safe_num], the feature construction, the
    memoised model loader with its [DummyModel] fallback, [predict_3h], the
    30-day and hourly forecast loops of the [/api/live] handler, and the
    handler itself.

    Layout: the Python runtime the code relies on (binary64 floats,
    exceptions, JSON-decoded values, the built-ins [float], [len],
    indexing, [dict.get], slicing, [max]), calendar dates, NumPy's row sum,
    then one module per source file, then the theorems. *)

From Stdlib Require Import ZArith Lia Bool String List.
From Stdlib Require Import Floats.SpecFloat.
From stdpp Require Import gmap strings list.

Set Warnings "-register-all".
Open Scope Z_scope.

(** ** Binary64 floating point (Python's [float])

    Python floats are IEEE-754 binary64 numbers; [spec_float] instantiated
    at precision 53 and maximal exponent 1024 is their executable
    specification, with round-to-nearest-even on every operation. *)

Module Float64.

Definition float : Type := spec_float.

Definition prec : Z := 53.
Definition emax : Z := 1024.

Definition add : float -> float -> float := SFadd prec emax.
Definition mul : float -> float -> float := SFmul prec emax.
Definition div : float -> float -> float := SFdiv prec emax.

(** [a < b], [a <= b] and [a > b] as Python evaluates them: every
    comparison with a NaN is false. *)
Definition ltb : float -> float -> bool := SFltb.
Definition leb : float -> float -> bool := SFleb.
Definition gtb (a b : float) : bool := SFltb b a.

(** The integer [z] rounded to the nearest binary64 number (an infinity
    when it is out of range). *)
Definition of_Z (z : Z) : float := binary_normalize prec emax z 0 false.

(** The decimal literal [m / 10^k].  Both operands are exactly
    representable for the literals of this program ([|m| < 2^53],
    [k <= 22]), so the single correctly rounded division yields the
    binary64 number nearest to the decimal. *)
Definition dec (m : Z) (k : Z) : float := div (of_Z m) (of_Z (10 ^ k)).

Definition zero : float := S754_zero false.

Definition is_finite (f : float) : bool :=
  match f with
  | S754_zero _ | S754_finite _ _ _ => true
  | S754_infinity _ | S754_nan => false
  end.

Definition infinity : float := S754_infinity false.
Definition nan : float := S754_nan.

End Float64.

Abbreviation float := Float64.float.

(** ** Exceptions and fallible computations *)

(** The classes of [Exception] the program can meet.  [OtherError] stands
    for any further subclass of [Exception] raised by a collaborator
    (requests, joblib, a model's [predict]).  Signals outside [Exception]
    (keyboard interrupt, interpreter exit) end the process and are not
    modelled; every [except Exception] clause therefore catches every
    [exn]. *)
Inductive exn : Type :=
| TypeError
| ValueError
| OverflowError
| IndexError
| KeyError
| AttributeError
| OtherError (name : string).

Inductive result (A : Type) : Type :=
| Ok (a : A)
| Raise (e : exn).
Arguments Ok {A} a.
Arguments Raise {A} e.

Definition result_bind {A B} (r : result A) (k : A -> result B) : result B :=
  match r with
  | Ok a => k a
  | Raise e => Raise e
  end.

(** [try: body / except Exception as e: handler e]. *)
Definition try_except {A} (body : result A) (handler : exn -> result A) : result A :=
  match body with
  | Ok a => Ok a
  | Raise e => handler e
  end.

Declare Scope result_scope.
Delimit Scope result_scope with result.
Notation "x <- r ;; k" := (result_bind r (fun x => k))
  (at level 100, r at next level, right associativity) : result_scope.

(** ** JSON-decoded values

    What [Response.json()] hands to the handler: [None], booleans, integers
    of any size, floats (including the infinities and NaN, which Python's
    decoder accepts), strings, lists and string-keyed dicts.  A string is
    its sequence of characters, one [ascii] per character, so its length
    and its indexing are Python's on text within that range. *)
Inductive value : Type :=
| VNone
| VBool (b : bool)
| VInt (z : Z)
| VFloat (f : float)
| VStr (s : string)
| VList (l : list value)
| VDict (d : gmap string value).

Definition is_none (x : value) : bool :=
  match x with
  | VNone => true
  | _ => false
  end.

(** ** Built-ins *)

Section Builtins.

(** CPython's conversion of a string to a float ([float("1.5")]): [None]
    when the text is not a float literal. *)
Variable float_of_str : string -> option float.

(** [float(n)] for an integer: the nearest binary64 number, and
    [OverflowError] when that is out of range. *)
Definition int_to_float (z : Z) : result float :=
  match Float64.of_Z z with
  | S754_infinity _ => Raise OverflowError
  | f => Ok f
  end.

(** The built-in [float(x)]. *)
Definition py_float (x : value) : result float :=
  match x with
  | VNone => Raise TypeError
  | VBool b => Ok (if b then Float64.of_Z 1 else Float64.zero)
  | VInt z => int_to_float z
  | VFloat f => Ok f
  | VStr s =>
      match float_of_str s with
      | Some f => Ok f
      | None => Raise ValueError
      end
  | VList _ | VDict _ => Raise TypeError
  end.

End Builtins.

(** The built-in [len(x)]. *)
Definition py_len (x : value) : result Z :=
  match x with
  | VStr s => Ok (Z.of_nat (String.length s))
  | VList l => Ok (Z.of_nat (length l))
  | VDict d => Ok (Z.of_nat (size d))
  | VNone | VBool _ | VInt _ | VFloat _ => Raise TypeError
  end.

(** Position [i] of a sequence of length [n], Python style: negative
    indices count from the end, anything outside [-n, n) is an error. *)
Definition seq_index (n : nat) (i : Z) : option nat :=
  if (0 <=? i) && (i <? Z.of_nat n) then Some (Z.to_nat i)
  else if (- Z.of_nat n <=? i) && (i <? 0) then Some (Z.to_nat (Z.of_nat n + i))
  else None.

(** [x[i]] for an integer [i].  A dict decoded from JSON has string keys
    only, so an integer key is never found. *)
Definition py_getitem (x : value) (i : Z) : result value :=
  match x with
  | VList l =>
      match seq_index (length l) i with
      | Some k =>
          match l !! k with
          | Some v => Ok v
          | None => Raise IndexError
          end
      | None => Raise IndexError
      end
  | VStr s =>
      match seq_index (String.length s) i with
      | Some k =>
          match String.get k s with
          | Some c => Ok (VStr (String c EmptyString))
          | None => Raise IndexError
          end
      | None => Raise IndexError
      end
  | VDict _ => Raise KeyError
  | VNone | VBool _ | VInt _ | VFloat _ => Raise TypeError
  end.

(** [x[key]] for a string [key]. *)
Definition py_getitem_str (x : value) (key : string) : result value :=
  match x with
  | VDict d =>
      match d !! key with
      | Some v => Ok v
      | None => Raise KeyError
      end
  | _ => Raise TypeError
  end.

(** [x.get(key, default)]: only dicts have the method. *)
Definition py_get (x : value) (key : string) (default : value) : result value :=
  match x with
  | VDict d =>
      match d !! key with
      | Some v => Ok v
      | None => Ok default
      end
  | _ => Raise AttributeError
  end.

(** The items of [x[:n]], in order, as a [for] loop sees them: the first
    [n] elements of a list, the first [n] characters of a string; slicing
    anything else raises (a dict rejects the slice as a key). *)
Definition py_slice_items (x : value) (n : nat) : result (list value) :=
  match x with
  | VList l => Ok (take n l)
  | VStr s =>
      Ok (map (fun c => VStr (String c EmptyString))
              (take n (list_ascii_of_string s)))
  | VDict _ => Raise TypeError
  | VNone | VBool _ | VInt _ | VFloat _ => Raise TypeError
  end.

(** [enumerate(items)]. *)
Definition enumerate {A} (items : list A) : list (Z * A) :=
  imap (fun k a => (Z.of_nat k, a)) items.

(** [range(n)]. *)
Definition py_range (n : nat) : list Z := map Z.of_nat (seq 0 n).

(** The built-in [max(a, b)] on floats: [b] replaces [a] only when
    [b > a], so a NaN in second position never wins. *)
Definition py_max (a b : float) : float :=
  if Float64.gtb b a then b else a.

(** ** Calendar dates ([datetime.date])

    A date is its proleptic Gregorian ordinal (1 is 0001-01-01, 3652059 is
    9999-12-31).  [date + timedelta(days=n)] is ordinal arithmetic and
    raises [OverflowError] when the result leaves that range; [isoformat]
    renders a date injectively, so the response is modelled with the date
    itself. *)

Module Datetime.

Record date : Type := { toordinal : Z }.

Definition MINORDINAL : Z := 1.
Definition MAXORDINAL : Z := 3652059.

Definition add_days (d : date) (days : Z) : result date :=
  let o := toordinal d + days in
  if (MINORDINAL <=? o) && (o <=? MAXORDINAL)
  then Ok {| toordinal := o |}
  else Raise OverflowError.

End Datetime.

Abbreviation date := Datetime.date.

(** ** NumPy *)

Module Numpy.

(** Left-to-right accumulation onto [acc]: [for x in a: acc += x]. *)
Definition sequential_sum (acc : float) (a : list float) : float :=
  fold_left Float64.add a acc.

(** The final combination of the eight partial sums of the unrolled
    kernel: [((r0 + r1) + (r2 + r3)) + ((r4 + r5) + (r6 + r7))]. *)
Definition tree8 (r : list float) : float :=
  match r with
  | [r0; r1; r2; r3; r4; r5; r6; r7] =>
      Float64.add
        (Float64.add (Float64.add r0 r1) (Float64.add r2 r3))
        (Float64.add (Float64.add r4 r5) (Float64.add r6 r7))
  | _ => Float64.zero
  end.

(** The unrolled loop: each of the next [blocks] groups of eight elements
    of [rest] is added, position by position, to the eight partial sums. *)
Fixpoint accumulate8 (blocks : nat) (r rest : list float)
  : list float * list float :=
  match blocks with
  | O => (r, rest)
  | S k => accumulate8 k (zip_with Float64.add r (take 8 rest)) (drop 8 rest)
  end.

(** The kernel on 8 to 128 elements: eight partial sums over the full
    groups of eight, combined as a tree, then the remaining elements (fewer
    than eight) added one by one. *)
Definition unrolled_sum (a : list float) : float :=
  let '(r, rest) :=
    accumulate8 (Nat.div (length a) 8 - 1) (take 8 a) (drop 8 a) in
  sequential_sum (tree8 r) rest.

(** NumPy's pairwise summation of a contiguous run of float64: fewer
    than 8 elements are added left to right from [0.0], up to 128 go
    through the unrolled kernel, longer runs are split in two near the
    middle, at a multiple of eight.  [fuel] bounds the depth of the
    splitting; the length of the run is always enough. *)
Fixpoint pairwise_sum_rec (fuel : nat) (a : list float) : float :=
  let n := length a in
  if Nat.ltb n 8 then sequential_sum Float64.zero a
  else if Nat.leb n 128 then unrolled_sum a
  else
    match fuel with
    | O => unrolled_sum a
    | S fuel' =>
        let n2 := (Nat.div n 2 - Nat.modulo (Nat.div n 2) 8)%nat in
        Float64.add (pairwise_sum_rec fuel' (take n2 a))
                    (pairwise_sum_rec fuel' (drop n2 a))
    end.

Definition pairwise_sum (a : list float) : float :=
  pairwise_sum_rec (length a) a.

(** The sum of one row as [np.sum] computes it: the pairwise sum of the
    row added to the initial value [0.0] of the reduction. *)
Definition row_sum (row : list float) : float :=
  Float64.add Float64.zero (pairwise_sum row).

(** The pairwise kernel written out for a row of exactly eight numbers. *)
Definition row_sum_pairwise8 (row : list float) : option float :=
  match row with
  | [a0; a1; a2; a3; a4; a5; a6; a7] =>
      Some (Float64.add
              (Float64.add (Float64.add a0 a1) (Float64.add a2 a3))
              (Float64.add (Float64.add a4 a5) (Float64.add a6 a7)))
  | _ => None
  end.

(** [np.sum(X, axis=1)] for a batch [X] given as a list of rows: one sum
    per row.  An empty batch has no axis 1 and rows of unequal length do
    not form an array. *)
Definition sum_axis1 (X : list (list float)) : result (list float) :=
  match X with
  | [] => Raise (OtherError "AxisError")
  | row :: rows =>
      if forallb (fun r => Nat.eqb (length r) (length row)) rows
      then Ok (map row_sum X)
      else Raise ValueError
  end.

End Numpy.

(** ** Process state *)

(** A model object: its identity and what its [predict] method does with
    a batch of feature rows. *)
Record Model : Type := {
  model_id : nat;
  model_predict : list (list float) -> result (list float);
}.

(** What the process prints (the two lines echoing the request URLs in
    the fetch helpers are left out). *)
Inductive diagnostic : Type :=
| WarnDummyModel (model_path : string) (e : exn)
    (* [WARN] Could not load model at <model_path>, using DummyModel. Error: <e> *)
| WarnForecast30 (e : exn)   (* Failed to build 30-day AQI forecast: <e> *)
| WarnHourly (e : exn)       (* Failed to build hourly AQI: <e> *)
| ErrLive (e : exn).         (* Unexpected error in /api/live: <e> *)

(** The mutable state of the server process: the two module-level
    [_model_cache] variables ([None] is Python's [None]), the allocator of
    object identities, the calls made to [joblib.load] and the printed
    diagnostics, oldest first. *)
Record world : Type := {
  loader_model_cache : option Model;   (* model_loader._model_cache *)
  main_model_cache : option Model;     (* main._model_cache *)
  next_id : nat;
  load_log : list string;
  diagnostics : list diagnostic;
}.

Definition initial_world : world :=
  {| loader_model_cache := None; main_model_cache := None;
     next_id := 0; load_log := []; diagnostics := [] |}.

(** Stateful, fallible computations.  The state reached when an exception
    is raised is kept: Python does not roll anything back. *)
Definition M (A : Type) : Type := world -> result A * world.

Definition ret {A} (a : A) : M A := fun w => (Ok a, w).

Definition bind {A B} (m : M A) (k : A -> M B) : M B :=
  fun w =>
    match m w with
    | (Ok a, w') => k a w'
    | (Raise e, w') => (Raise e, w')
    end.

Definition lift {A} (r : result A) : M A := fun w => (r, w).

Definition try_except_M {A} (body : M A) (handler : exn -> M A) : M A :=
  fun w =>
    match body w with
    | (Ok a, w') => (Ok a, w')
    | (Raise e, w') => handler e w'
    end.

Declare Scope M_scope.
Delimit Scope M_scope with M.
Notation "x <- m ;; k" := (bind m (fun x => k))
  (at level 100, m at next level, right associativity) : M_scope.
Notation "m ;;; k" := (bind m (fun _ => k))
  (at level 100, right associativity) : M_scope.

Definition print (d : diagnostic) : M unit :=
  fun w =>
    (Ok tt,
     {| loader_model_cache := loader_model_cache w;
        main_model_cache := main_model_cache w;
        next_id := next_id w;
        load_log := load_log w;
        diagnostics := diagnostics w ++ [d] |}).

(** [for x in items: acc.append(body(x))], started with [acc] already
    holding some elements.  The list lives outside the loop, so what was
    appended before an exception stays in it. *)
Fixpoint for_append {A B} (items : list A) (body : A -> M B) (acc : list B)
  (w : world) : (list B * result unit) * world :=
  match items with
  | [] => (acc, Ok tt, w)
  | x :: rest =>
      match body x w with
      | (Ok b, w') => for_append rest body (acc ++ [b]) w'
      | (Raise e, w') => (acc, Raise e, w')
      end
  end.

(** ** The fallback model

    [class DummyModel], textually the same in both source files:
    [predict(X) = np.sum(X, axis=1) * 0.1 + 50]. *)
Definition DummyModel_predict (X : list (list float)) : result (list float) :=
  (sums <- Numpy.sum_axis1 X ;;
   Ok (map (fun s => Float64.add (Float64.mul s (Float64.dec 1 1)) (Float64.of_Z 50))
           sums))%result.

Definition DummyModel (id : nat) : Model :=
  {| model_id := id; model_predict := DummyModel_predict |}.

(** The default of [model_path], the same string in both files. *)
Definition default_model_path : string :=
  "/Users/nitheeswaran/aqi-weather-app/aqi_2020_multivariate_model.pkl".

(** What [joblib.load] finds at a path: an exception, or the unpickled
    object, which is either [None] or an object whose [predict] behaves
    as given. *)
Definition loader : Type :=
  string -> result (option (list (list float) -> result (list float))).

(** Helpers to rebuild the state with one field changed. *)
Definition with_loader_cache (c : option Model) (w : world) : world :=
  {| loader_model_cache := c;
     main_model_cache := main_model_cache w;
     next_id := next_id w;
     load_log := load_log w;
     diagnostics := diagnostics w |}.

Definition with_main_cache (c : option Model) (w : world) : world :=
  {| loader_model_cache := loader_model_cache w;
     main_model_cache := c;
     next_id := next_id w;
     load_log := load_log w;
     diagnostics := diagnostics w |}.

Definition with_load_logged (model_path : string) (w : world) : world :=
  {| loader_model_cache := loader_model_cache w;
     main_model_cache := main_model_cache w;
     next_id := next_id w;
     load_log := load_log w ++ [model_path];
     diagnostics := diagnostics w |}.

Definition with_fresh_id (w : world) : world :=
  {| loader_model_cache := loader_model_cache w;
     main_model_cache := main_model_cache w;
     next_id := S (next_id w);
     load_log := load_log w;
     diagnostics := diagnostics w |}.

(** [joblib.load(model_path)]: the call is recorded, and an unpickled
    object gets a fresh identity. *)
Definition call_joblib_load (joblib_load : loader) (model_path : string)
  : M (option Model) :=
  fun w =>
    let w1 := with_load_logged model_path w in
    match joblib_load model_path with
    | Raise e => (Raise e, w1)
    | Ok None => (Ok None, w1)
    | Ok (Some p) =>
        (Ok (Some {| model_id := next_id w1; model_predict := p |}),
         with_fresh_id w1)
    end.

(** [DummyModel()]: a fresh instance. *)
Definition new_DummyModel : M Model :=
  fun w => (Ok (DummyModel (next_id w)), with_fresh_id w).

(** ** backend/model_loader.py *)

Module ModelLoader.
Section WithDisk.

Variable joblib_load : loader.

(** Reads and writes of the module's global [_model_cache]. *)
Definition get_cache : M (option Model) :=
  fun w => (Ok (loader_model_cache w), w).

Definition set_cache (c : option Model) : M unit :=
  fun w => (Ok tt, with_loader_cache c w).

(** [load_model], lines 7-22. *)
Definition load_model (model_path : string) : M (option Model) :=
  (cache <- get_cache ;;
   match cache with
   | Some m => ret (Some m)
   | None =>
       try_except_M
         (loaded <- call_joblib_load joblib_load model_path ;;
          set_cache loaded)
         (fun e =>
            dummy <- new_DummyModel ;;
            set_cache (Some dummy) ;;;
            print (WarnDummyModel model_path e)) ;;;
       get_cache
   end)%M.

End WithDisk.
End ModelLoader.

(** ** backend/main.py *)

Module Main.

(** [class AQIFeatures(BaseModel)]: eight float fields. *)
Record AQIFeatures : Type := {
  PM25 : float;
  PM10 : float;
  NO2 : float;
  NO : float;
  NH3 : float;
  CO : float;
  SO2 : float;
  O3 : float;
}.

(** One entry of [forecast30]. *)
Record ForecastPoint : Type := {
  fp_date : date;
  fp_predicted_aqi : float;
}.

(** One entry of [hourly_aqi]. *)
Record HourlyPoint : Type := {
  hp_time : value;
  hp_predicted_aqi : float;
}.

Record Weather : Type := {
  temp_c : float;
  humidity : float;
  pressure : float;
  wind_speed : float;
}.

(** The JSON document a successful request returns. *)
Record Response : Type := {
  city : string;
  lat : float;
  lon : float;
  fetched_at : string;
  weather : Weather;
  current_components : AQIFeatures;
  predicted_aqi_3h : float;
  forecast_30d : list ForecastPoint;
  hourly_aqi : list HourlyPoint;
}.

(** How a call of the handler ends: it returns its document, or it
    raises [HTTPException].  Turning a returned document into the bytes
    of an HTTP answer is FastAPI's work and is not part of the handler; a
    document holding an infinity or a NaN cannot be written as JSON. *)
Inductive http_result : Type :=
| Returned (body : Response)
| HTTPException (status_code : Z) (detail : exn).

(** The local variables read from [aq["hourly"]], lines 123-131 and
    162-170. *)
Record hourly_arrays : Type := {
  timestamps : value;
  pm25_vals : value;
  pm10_vals : value;
  no2_vals : value;
  co_vals : value;
  so2_vals : value;
  o3_vals : value;
  nh3_vals : value;
}.

Section WithEnvironment.

Variable float_of_str : string -> option float.
Variable joblib_load : loader.

(** [_safe_num], lines 33-40. *)
Definition _safe_num (x : value) (default : float) : result float :=
  try_except
    (if is_none x then Ok default else py_float float_of_str x)
    (fun _ => Ok default).

(** Reads and writes of the module's global [_model_cache]. *)
Definition get_cache : M (option Model) :=
  fun w => (Ok (main_model_cache w), w).

Definition set_cache (c : option Model) : M unit :=
  fun w => (Ok tt, with_main_cache c w).

(** [load_model], lines 214-228: the definition that the name
    [load_model] is bound to once the module is imported. *)
Definition load_model (model_path : string) : M (option Model) :=
  (cache <- get_cache ;;
   match cache with
   | Some m => ret (Some m)
   | None =>
       try_except_M
         (loaded <- call_joblib_load joblib_load model_path ;;
          set_cache loaded)
         (fun e =>
            dummy <- new_DummyModel ;;
            set_cache (Some dummy) ;;;
            print (WarnDummyModel model_path e)) ;;;
       get_cache
   end)%M.

(** The single-row batch [X] of [predict_3h]. *)
Definition feature_row (features : AQIFeatures) : list float :=
  [PM25 features; PM10 features; NO2 features; NO features;
   NH3 features; CO features; SO2 features; O3 features].

(** [float(model.predict(X)[0])] for the object [load_model] returned:
    [None] has no [predict], an empty result has no element 0. *)
Definition call_predict (model : option Model) (X : list (list float))
  : result float :=
  match model with
  | None => Raise AttributeError
  | Some m =>
      (ys <- model_predict m X ;;
       match ys with
       | y :: _ => Ok y
       | [] => Raise IndexError
       end)%result
  end.

(** [predict_3h], lines 78-90. *)
Definition predict_3h (features : AQIFeatures) : M float :=
  (model <- load_model default_model_path ;;
   lift (call_predict model [feature_row features]))%M.

(** [vals[i] if i < len(vals) else None]. *)
Definition item_or_None (vals : value) (i : Z) : result value :=
  (n <- py_len vals ;;
   if i <? n then py_getitem vals i else Ok VNone)%result.

(** The construction of [features] at index [i], lines 136-145 and,
    with the same text, 173-182. *)
Definition build_features (r : hourly_arrays) (i : Z) : result AQIFeatures :=
  (x25 <- item_or_None (pm25_vals r) i ;;
   pm25 <- _safe_num x25 Float64.zero ;;
   x10 <- item_or_None (pm10_vals r) i ;;
   pm10 <- _safe_num x10 Float64.zero ;;
   xno2 <- item_or_None (no2_vals r) i ;;
   no2 <- _safe_num xno2 Float64.zero ;;
   xnh3 <- item_or_None (nh3_vals r) i ;;
   nh3 <- _safe_num xnh3 Float64.zero ;;
   xco <- item_or_None (co_vals r) i ;;
   co <- _safe_num xco Float64.zero ;;
   xso2 <- item_or_None (so2_vals r) i ;;
   so2 <- _safe_num xso2 Float64.zero ;;
   xo3 <- item_or_None (o3_vals r) i ;;
   o3 <- _safe_num xo3 Float64.zero ;;
   Ok {| PM25 := pm25; PM10 := pm10; NO2 := no2; NO := Float64.zero;
         NH3 := nh3; CO := co; SO2 := so2; O3 := o3 |})%result.

(** Lines 123-131 (and 162-170): the arrays of [aq["hourly"]], each
    defaulting to the empty list when its key is absent. *)
Definition read_hourly (aq : value) : result hourly_arrays :=
  (hours <- py_get aq "hourly" (VDict ∅) ;;
   ts <- py_get hours "time" (VList []) ;;
   pm25 <- py_get hours "pm2_5" (VList []) ;;
   pm10 <- py_get hours "pm10" (VList []) ;;
   no2 <- py_get hours "nitrogen_dioxide" (VList []) ;;
   co <- py_get hours "carbon_monoxide" (VList []) ;;
   so2 <- py_get hours "sulphur_dioxide" (VList []) ;;
   o3 <- py_get hours "ozone" (VList []) ;;
   nh3 <- py_get hours "ammonia" (VList []) ;;
   Ok {| timestamps := ts; pm25_vals := pm25; pm10_vals := pm10;
         no2_vals := no2; co_vals := co; so2_vals := so2;
         o3_vals := o3; nh3_vals := nh3 |})%result.

(** The fallback of lines 146-149 and 183-186:
    [try: predicted = predict_3h(features) / except Exception: predicted = 50.0]. *)
Definition predict_or_50 (features : AQIFeatures) : M float :=
  try_except_M (predict_3h features) (fun _ => ret (Float64.of_Z 50)).

(** One iteration of the 30-day loop, lines 135-154, for day offset [d]. *)
Definition forecast30_day (r : hourly_arrays) (today : date) (d : Z)
  : M ForecastPoint :=
  (n <- lift (py_len (timestamps r)) ;;
   let i := Z.min d (n - 1) in
   features <- lift (build_features r i) ;;
   predicted <- predict_or_50 features ;;
   day <- lift (Datetime.add_days today (d + 1)) ;;
   ret {| fp_date := day;
          fp_predicted_aqi := py_max Float64.zero predicted |})%M.

(** The loop [for d in range(30)], lines 134-154, on arrays already
    read: the points appended to [forecast30] and how the loop ended. *)
Definition build_forecast_30d (r : hourly_arrays) (today : date)
  : world -> (list ForecastPoint * result unit) * world :=
  for_append (py_range 30) (forecast30_day r today) [].

(** The body of the [try] of lines 122-154. *)
Definition forecast30_try (aq : value) (today : date)
  : world -> (list ForecastPoint * result unit) * world :=
  fun w =>
    match read_hourly aq with
    | Raise e => ([], Raise e, w)
    | Ok r => build_forecast_30d r today w
    end.

(** Lines 121-156: [forecast30] after the [try] and its handler. *)
Definition forecast30_section (aq : value) (today : date)
  : world -> list ForecastPoint * world :=
  fun w =>
    match forecast30_try aq today w with
    | (forecast30, Ok _, w') => (forecast30, w')
    | (forecast30, Raise e, w') =>
        (forecast30, snd (print (WarnForecast30 e) w'))
    end.

(** One iteration of the hourly loop, lines 173-187. *)
Definition hourly_hour (r : hourly_arrays) (item : Z * value)
  : M HourlyPoint :=
  (let '(i, ts) := item in
   features <- lift (build_features r i) ;;
   predicted <- predict_or_50 features ;;
   ret {| hp_time := ts; hp_predicted_aqi := predicted |})%M.

(** The loop [for i, ts in enumerate(timestamps[:24])], lines 172-187,
    on arrays already read. *)
Definition build_hourly_today (r : hourly_arrays)
  : world -> (list HourlyPoint * result unit) * world :=
  fun w =>
    match py_slice_items (timestamps r) 24 with
    | Raise e => ([], Raise e, w)
    | Ok items => for_append (enumerate items) (hourly_hour r) [] w
    end.

(** The body of the [try] of lines 161-187. *)
Definition hourly_try (aq : value)
  : world -> (list HourlyPoint * result unit) * world :=
  fun w =>
    match read_hourly aq with
    | Raise e => ([], Raise e, w)
    | Ok r => build_hourly_today r w
    end.

(** Lines 160-189: [hourly_aqi] after the [try] and its handler. *)
Definition hourly_section (aq : value)
  : world -> list HourlyPoint * world :=
  fun w =>
    match hourly_try aq w with
    | (hourly, Ok _, w') => (hourly, w')
    | (hourly, Raise e, w') => (hourly, snd (print (WarnHourly e) w'))
    end.

(** [aq["hourly"][key][0]], lines 101-108. *)
Definition first_reading (aq : value) (key : string) : result value :=
  (hours <- py_getitem_str aq "hourly" ;;
   vals <- py_getitem_str hours key ;;
   py_getitem vals 0)%result.

(** [comps], lines 100-109. *)
Definition current_features (aq : value) : result AQIFeatures :=
  (x25 <- first_reading aq "pm2_5" ;;
   pm25 <- _safe_num x25 Float64.zero ;;
   x10 <- first_reading aq "pm10" ;;
   pm10 <- _safe_num x10 Float64.zero ;;
   xno2 <- first_reading aq "nitrogen_dioxide" ;;
   no2 <- _safe_num xno2 Float64.zero ;;
   xnh3 <- first_reading aq "ammonia" ;;
   nh3 <- _safe_num xnh3 Float64.zero ;;
   xco <- first_reading aq "carbon_monoxide" ;;
   co <- _safe_num xco Float64.zero ;;
   xso2 <- first_reading aq "sulphur_dioxide" ;;
   so2 <- _safe_num xso2 Float64.zero ;;
   xo3 <- first_reading aq "ozone" ;;
   o3 <- _safe_num xo3 Float64.zero ;;
   Ok {| PM25 := pm25; PM10 := pm10; NO2 := no2; NO := Float64.zero;
         NH3 := nh3; CO := co; SO2 := so2; O3 := o3 |})%result.

(** [wx["current"][key]], lines 112-115. *)
Definition current_reading (wx : value) (key : string) : result value :=
  (current <- py_getitem_str wx "current" ;;
   py_getitem_str current key)%result.

(** [weather], lines 111-116. *)
Definition current_weather (wx : value) : result Weather :=
  (xt <- current_reading wx "temperature_2m" ;;
   t <- _safe_num xt Float64.zero ;;
   xh <- current_reading wx "relative_humidity_2m" ;;
   h <- _safe_num xh Float64.zero ;;
   xp <- current_reading wx "pressure_msl" ;;
   p <- _safe_num xp Float64.zero ;;
   xw <- current_reading wx "wind_speed_10m" ;;
   ws <- _safe_num xw Float64.zero ;;
   Ok {| temp_c := t; humidity := h; pressure := p; wind_speed := ws |})%result.

(** [city or "Unknown"]. *)
Definition city_or_unknown (c : option string) : string :=
  match c with
  | None => "Unknown"
  | Some EmptyString => "Unknown"
  | Some s => s
  end.

(** What the two upstream requests give ([fetch_air_quality],
    [fetch_weather], lines 44-75) and what the clock reads. *)
Variable fetch_air_quality : float -> float -> result value.
Variable fetch_weather : float -> float -> result value.
Variable today : date.
Variable utcnow_isoformat : string.

(** Lines 97-118: everything before the two forecast sections. *)
Definition live_prelude (lat lon : float)
  : M (value * Weather * AQIFeatures * float) :=
  (aq <- lift (fetch_air_quality lat lon) ;;
   wx <- lift (fetch_weather lat lon) ;;
   comps <- lift (current_features aq) ;;
   weather <- lift (current_weather wx) ;;
   aqi3 <- predict_3h comps ;;
   ret (aq, weather, comps, aqi3))%M.

(** The body of the outer [try], lines 97-201. *)
Definition live_body (lat lon : float) (city : option string) : M Response :=
  (pre <- live_prelude lat lon ;;
   let '(aq, weather, comps, aqi3) := pre in
   fun w =>
     let '(forecast30, w1) := forecast30_section aq today w in
     let '(hourly, w2) := hourly_section aq w1 in
     (Ok {| city := city_or_unknown city;
            lat := lat;
            lon := lon;
            fetched_at := utcnow_isoformat;
            weather := weather;
            current_components := comps;
            predicted_aqi_3h := aqi3;
            forecast_30d := forecast30;
            hourly_aqi := hourly |},
      w2))%M.

(** The handler of [GET /api/live], lines 94-205. *)
Definition live (lat lon : float) (city : option string)
  : world -> http_result * world :=
  fun w =>
    match live_body lat lon city w with
    | (Ok body, w') => (Returned body, w')
    | (Raise e, w') => (HTTPException 500 e, snd (print (ErrLive e) w'))
    end.

End WithEnvironment.
End Main.

(** ** Vocabulary of the statements *)

(** The value kept for a point whose prediction ended as [r]. *)
Definition or_50 (r : result float) : float :=
  match r with
  | Ok v => v
  | Raise _ => Float64.of_Z 50
  end.

(** The object [main.load_model()] returns in state [w]. *)
Definition resolved_model (joblib_load : loader) (w : world) : option Model :=
  match fst (Main.load_model joblib_load default_model_path w) with
  | Ok m => m
  | Raise _ => None
  end.

(** The feature vector built at index [i], when one is built. *)
Definition features_at (float_of_str : string -> option float)
  (r : Main.hourly_arrays) (i : Z) : Main.AQIFeatures :=
  match Main.build_features float_of_str r i with
  | Ok f => f
  | Raise _ =>
      {| Main.PM25 := Float64.zero; Main.PM10 := Float64.zero;
         Main.NO2 := Float64.zero; Main.NO := Float64.zero;
         Main.NH3 := Float64.zero; Main.CO := Float64.zero;
         Main.SO2 := Float64.zero; Main.O3 := Float64.zero |}
  end.

Definition is_list (v : value) : bool :=
  match v with
  | VList _ => true
  | _ => false
  end.

(** Every pollutant series is a JSON array. *)
Definition pollutant_arrays (r : Main.hourly_arrays) : Prop :=
  is_list (Main.pm25_vals r) = true /\ is_list (Main.pm10_vals r) = true /\
  is_list (Main.no2_vals r) = true /\ is_list (Main.co_vals r) = true /\
  is_list (Main.so2_vals r) = true /\ is_list (Main.o3_vals r) = true /\
  is_list (Main.nh3_vals r) = true.

(** The thirty days after [today] are dates of the calendar. *)
Definition horizon_representable (today : date) : Prop :=
  Datetime.MINORDINAL <= Datetime.toordinal today + 1 /\
  Datetime.toordinal today + 30 <= Datetime.MAXORDINAL.

Definition all_finite (f : Main.AQIFeatures) : bool :=
  forallb Float64.is_finite (Main.feature_row f).

(** A sequence of [n] calls [load_model(path)], with what each returned. *)
Fixpoint call_n (load : string -> M (option Model)) (path : string) (n : nat)
  (w : world) : list (result (option Model)) * world :=
  match n with
  | O => ([], w)
  | S n' =>
      let '(r, w1) := load path w in
      let '(rs, w2) := call_n load path n' w1 in
      (r :: rs, w2)
  end.

(** The view of the process from inside [model_loader]: the two module
    caches exchanged. *)
Definition swap_modules (w : world) : world :=
  {| loader_model_cache := main_model_cache w;
     main_model_cache := loader_model_cache w;
     next_id := next_id w;
     load_log := load_log w;
     diagnostics := diagnostics w |}.

(** The guarded indexing [vals[i] if i < len(vals) else None] yields a
    value. *)
Definition indexable (v : value) (i : Z) : Prop :=
  exists x, Main.item_or_None v i = Ok x.

(** The hourly entry for position [fst item] and timestamp [snd item]
    when [load_model()] returns [m]: the model's answer on the features of
    that position, or 50.0 when the call fails; nothing else is done to
    the value. *)
Definition hourly_point (float_of_str : string -> option float)
  (r : Main.hourly_arrays) (m : option Model) (item : Z * value)
  : Main.HourlyPoint :=
  {| Main.hp_time := snd item;
     Main.hp_predicted_aqi :=
       or_50 (Main.call_predict m
                [Main.feature_row (features_at float_of_str r (fst item))]) |}.

(** The 30-day entry for day offset [d] when [timestamps] has [n]
    elements and [load_model()] returns [m]. *)
Definition forecast_point (float_of_str : string -> option float)
  (r : Main.hourly_arrays) (n : Z) (today : date) (m : option Model) (d : Z)
  : Main.ForecastPoint :=
  {| Main.fp_date := {| Datetime.toordinal := Datetime.toordinal today + (d + 1) |};
     Main.fp_predicted_aqi :=
       py_max Float64.zero
         (or_50 (Main.call_predict m
                   [Main.feature_row
                      (features_at float_of_str r (Z.min d (n - 1)))])) |}.

(** *** Concrete environments and inputs used in examples *)

(** A string parser that knows the literal ["1.5"] only. *)
Definition toy_parser : string -> option float :=
  fun s => if String.eqb s "1.5" then Some (Float64.dec 15 1) else None.

(** A disk whose model file unpickles to [None]. *)
Definition none_artifact : loader := fun _ => Ok None.

(** A disk without the model file. *)
Definition missing_artifact : loader :=
  fun _ => Raise (OtherError "FileNotFoundError").

(** A model that answers with the first feature of each row and fails on
    a batch whose first row starts with a NaN. *)
Definition first_feature_model : list (list float) -> result (list float) :=
  fun X =>
    match X with
    | (S754_nan :: _) :: _ => Raise ValueError
    | _ => Ok (map (fun row => hd Float64.zero row) X)
    end.

Definition first_feature_artifact : loader :=
  fun _ => Ok (Some first_feature_model).

(** 2026-11-03. *)
Definition a_day : date := {| Datetime.toordinal := 739923 |}.

(** The arrays of the worked scenario: two hourly samples. *)
Definition scenario : Main.hourly_arrays :=
  {| Main.timestamps := VList [VStr "t0"; VStr "t1"];
     Main.pm25_vals := VList [VInt 10; VInt 20];
     Main.pm10_vals := VList [VInt 5; VInt 15];
     Main.no2_vals := VList [VInt 1; VInt 2];
     Main.co_vals := VList [VInt 100; VInt 200];
     Main.so2_vals := VList [VFloat (Float64.dec 5 1); VFloat (Float64.dec 15 1)];
     Main.o3_vals := VList [VInt 30; VInt 40];
     Main.nh3_vals := VList [VFloat (Float64.dec 1 1); VFloat (Float64.dec 2 1)] |}.

(** The same pollutant arrays with no timestamps at all. *)
Definition scenario_without_timestamps : Main.hourly_arrays :=
  {| Main.timestamps := VList [];
     Main.pm25_vals := Main.pm25_vals scenario;
     Main.pm10_vals := Main.pm10_vals scenario;
     Main.no2_vals := Main.no2_vals scenario;
     Main.co_vals := Main.co_vals scenario;
     Main.so2_vals := Main.so2_vals scenario;
     Main.o3_vals := Main.o3_vals scenario;
     Main.nh3_vals := Main.nh3_vals scenario |}.

(** Three hourly samples whose PM2.5 readings are NaN, 20 and -3. *)
Definition flaky_scenario : Main.hourly_arrays :=
  {| Main.timestamps := VList [VStr "t0"; VStr "t1"; VStr "t2"];
     Main.pm25_vals := VList [VFloat Float64.nan; VInt 20; VInt (-3)];
     Main.pm10_vals := VList [];
     Main.no2_vals := VList [];
     Main.co_vals := VList [];
     Main.so2_vals := VList [];
     Main.o3_vals := VList [];
     Main.nh3_vals := VList [] |}.

(** The two feature vectors of the worked scenario. *)
Definition scenario_features_0 : Main.AQIFeatures :=
  {| Main.PM25 := Float64.of_Z 10; Main.PM10 := Float64.of_Z 5;
     Main.NO2 := Float64.of_Z 1; Main.NO := Float64.zero;
     Main.NH3 := Float64.dec 1 1; Main.CO := Float64.of_Z 100;
     Main.SO2 := Float64.dec 5 1; Main.O3 := Float64.of_Z 30 |}.

Definition scenario_features_1 : Main.AQIFeatures :=
  {| Main.PM25 := Float64.of_Z 20; Main.PM10 := Float64.of_Z 15;
     Main.NO2 := Float64.of_Z 2; Main.NO := Float64.zero;
     Main.NH3 := Float64.dec 2 1; Main.CO := Float64.of_Z 200;
     Main.SO2 := Float64.dec 15 1; Main.O3 := Float64.of_Z 40 |}.

(** The reading that [vals[i] if i < len(vals) else None] selects in an
    array at a non-negative index: the element, or [None] past the end. *)
Definition reading_at (vals : value) (i : Z) : value :=
  match vals with
  | VList l => default VNone (l !! Z.to_nat i)
  | _ => VNone
  end.

(** [field] is the coercion of the reading of [vals] at [i]: its float
    when it converts, the default 0.0 when it is [None] (absent, null)
    or does not convert. *)
Definition coerced (float_of_str : string -> option float)
  (vals : value) (i : Z) (field : float) : Prop :=
  let x := reading_at vals i in
  py_float float_of_str x = Ok field \/
  ((x = VNone \/ exists e, py_float float_of_str x = Raise e) /\
   field = Float64.zero).

(** The reading of [vals] at [i], if it converts, converts to a finite
    float. *)
Definition finite_reading (float_of_str : string -> option float)
  (vals : value) (i : Z) : Prop :=
  forall y, py_float float_of_str (reading_at vals i) = Ok y ->
            Float64.is_finite y = true.

(** One sample whose PM2.5 reading is an infinity (JSON [1e999]). *)
Definition infinite_reading : Main.hourly_arrays :=
  {| Main.timestamps := VList [VStr "t0"];
     Main.pm25_vals := VList [VFloat Float64.infinity];
     Main.pm10_vals := VList [VInt 5];
     Main.no2_vals := VList [VInt 1];
     Main.co_vals := VList [VInt 100];
     Main.so2_vals := VList [VFloat (Float64.dec 5 1)];
     Main.o3_vals := VList [VInt 30];
     Main.nh3_vals := VList [VFloat (Float64.dec 1 1)] |}.

(** An upstream document whose ["hourly"] object has the seven pollutant
    arrays of the scenario and no ["time"] key. *)
Definition aq_without_time : value :=
  VDict {[ "hourly" :=
    VDict (<[ "pm2_5" := Main.pm25_vals scenario ]>
          (<[ "pm10" := Main.pm10_vals scenario ]>
          (<[ "nitrogen_dioxide" := Main.no2_vals scenario ]>
          (<[ "carbon_monoxide" := Main.co_vals scenario ]>
          (<[ "sulphur_dioxide" := Main.so2_vals scenario ]>
          (<[ "ozone" := Main.o3_vals scenario ]>
          (<[ "ammonia" := Main.nh3_vals scenario ]> ∅))))))) ]}.


Definition wx_plain : value :=
  VDict {[ "current" :=
    VDict (<[ "temperature_2m" := VInt 21 ]>
          (<[ "relative_humidity_2m" := VInt 40 ]>
          (<[ "pressure_msl" := VInt 1013 ]>
          (<[ "wind_speed_10m" := VNone ]> ∅)))) ]}.

(** *** Evolution of the process state *)

(** [w'] is a state the process can be in after running from [w]: the
    cache of [model_loader] is as it was, the log of [joblib.load] calls
    and the printed lines have only grown at their end, identities are
    never reused, and a model cached by [main] stays cached with no
    further load and no further allocation. *)
Definition evolves (w w' : world) : Prop :=
  loader_model_cache w' = loader_model_cache w /\
  (exists calls, load_log w' = load_log w ++ calls) /\
  (exists lines, diagnostics w' = diagnostics w ++ lines) /\
  (next_id w <= next_id w')%nat /\
  (forall m, main_model_cache w = Some m ->
     main_model_cache w' = Some m /\
     load_log w' = load_log w /\
     next_id w' = next_id w).

(** A computation whose every run is an evolution of the state. *)
Definition evolving {A} (c : M A) : Prop :=
  forall w, evolves w (snd (c w)).

(** *** The upstream document as the handler reads it *)

(** [field] is the coercion of the first element of the series stored
    under [key] in the ["hourly"] object [h]. *)
Definition first_reading_of (float_of_str : string -> option float)
  (h : gmap string value) (key : string) (field : float) : Prop :=
  exists v x,
    h !! key = Some v /\
    py_getitem v 0 = Ok x /\
    Main._safe_num float_of_str x Float64.zero = Ok field.

(** The local arrays the two forecast blocks read from the ["hourly"]
    object [h]: each key's value, or the empty list when the key is
    absent. *)
Definition arrays_of (h : gmap string value) : Main.hourly_arrays :=
  {| Main.timestamps := default (VList []) (h !! "time");
     Main.pm25_vals := default (VList []) (h !! "pm2_5");
     Main.pm10_vals := default (VList []) (h !! "pm10");
     Main.no2_vals := default (VList []) (h !! "nitrogen_dioxide");
     Main.co_vals := default (VList []) (h !! "carbon_monoxide");
     Main.so2_vals := default (VList []) (h !! "sulphur_dioxide");
     Main.o3_vals := default (VList []) (h !! "ozone");
     Main.nh3_vals := default (VList []) (h !! "ammonia") |}.

(** A well-formed upstream document: the scenario's arrays with their two
    timestamps. *)
Definition aq_scenario : value :=
  VDict {[ "hourly" :=
    VDict (<[ "time" := Main.timestamps scenario ]>
          (<[ "pm2_5" := Main.pm25_vals scenario ]>
          (<[ "pm10" := Main.pm10_vals scenario ]>
          (<[ "nitrogen_dioxide" := Main.no2_vals scenario ]>
          (<[ "carbon_monoxide" := Main.co_vals scenario ]>
          (<[ "sulphur_dioxide" := Main.so2_vals scenario ]>
          (<[ "ozone" := Main.o3_vals scenario ]>
          (<[ "ammonia" := Main.nh3_vals scenario ]> ∅)))))))) ]}.

(** [field] is the coercion of the value stored under [key] in the
    ["current"] object [c]. *)
Definition current_value_of (float_of_str : string -> option float)
  (c : gmap string value) (key : string) (field : float) : Prop :=
  exists x,
    c !! key = Some x /\
    Main._safe_num float_of_str x Float64.zero = Ok field.

(** An upstream that cannot be reached, and one that answers with the
    scenario and the plain weather document. *)
Definition unreachable : float -> float -> result value :=
  fun _ _ => Raise (OtherError "ConnectionError").

Definition serves (doc : value) : float -> float -> result value :=
  fun _ _ => Ok doc.

(** The weather snapshot read from [wx_plain]. *)
Definition weather_plain : Main.Weather :=
  {| Main.temp_c := Float64.of_Z 21; Main.humidity := Float64.of_Z 40;
     Main.pressure := Float64.of_Z 1013; Main.wind_speed := Float64.zero |}.

(** The state after the first steps of a request for the scenario, made
    in a fresh process without the model file. *)
Definition after_scenario_prelude : world :=
  snd (Main.live_prelude toy_parser missing_artifact (serves aq_scenario)
         (serves wx_plain) Float64.zero Float64.zero initial_world).


(** What the fallback model answers on a feature vector: the eight
    fields added as NumPy adds a row of eight, times 0.1, plus 50. *)
Definition fallback_value (f : Main.AQIFeatures) : float :=
  Float64.add
    (Float64.mul
       (Float64.add Float64.zero
          (Float64.add
             (Float64.add (Float64.add (Main.PM25 f) (Main.PM10 f))
                (Float64.add (Main.NO2 f) (Main.NO f)))
             (Float64.add (Float64.add (Main.NH3 f) (Main.CO f))
                (Float64.add (Main.SO2 f) (Main.O3 f)))))
       (Float64.dec 1 1))
    (Float64.of_Z 50).

(** ** Basic facts *)

(** The decimal literals of the program and of the scenario denote the
    binary64 numbers Python reads them as ([float.hex]). *)
Example literal_0_1 : Float64.dec 1 1 = S754_finite false 7205759403792794 (-56).
Proof. reflexivity. Qed.

Example literal_64_66 : Float64.dec 6466 2 = S754_finite false 4550042998527754 (-46).
Proof. reflexivity. Qed.

Example literal_77_87 : Float64.dec 7787 2 = S754_finite false 5479614109114696 (-46).
Proof. reflexivity. Qed.

Example literal_146_6 : Float64.dec 1466 1 = S754_finite false 5158028948222771 (-45).
Proof. reflexivity. Qed.

Example literal_278_7 : Float64.dec 2787 1 = S754_finite false 4902942250578739 (-44).
Proof. reflexivity. Qed.

Example literal_50 : Float64.of_Z 50 = S754_finite false 7036874417766400 (-47).
Proof. reflexivity. Qed.

Lemma ltb_leb (a b : float) : Float64.ltb a b = true -> Float64.leb a b = true.
Proof.
  unfold Float64.ltb, Float64.leb, SFltb, SFleb.
  destruct (SFcompare a b) as [[ | | ]|]; intros H; congruence.
Qed.

Lemma py_max_zero_nonneg (v : float) :
  Float64.leb Float64.zero (py_max Float64.zero v) = true.
Proof.
  unfold py_max, Float64.gtb.
  destruct (SFltb Float64.zero v) eqn:E.
  - now apply ltb_leb.
  - reflexivity.
Qed.

Lemma py_len_nonneg (v : value) (n : Z) : py_len v = Ok n -> 0 <= n.
Proof. destruct v; simpl; intros H; inversion H; lia. Qed.

Section SafeNum.

Variable float_of_str : string -> option float.

Lemma safe_num_total (x : value) (d : float) :
  exists f, Main._safe_num float_of_str x d = Ok f.
Proof.
  unfold Main._safe_num, try_except.
  destruct (is_none x); [eauto|].
  destruct (py_float float_of_str x); eauto.
Qed.

Lemma safe_num_cases (x : value) (d f : float) :
  Main._safe_num float_of_str x d = Ok f ->
  f = d \/ py_float float_of_str x = Ok f.
Proof.
  unfold Main._safe_num, try_except.
  destruct (is_none x); [intros [= <-]; now left|].
  destruct (py_float float_of_str x); intros [= <-]; auto.
Qed.

End SafeNum.

Section LoaderFacts.

Variable joblib_load : loader.

(** The three ways a call with an empty cache can go, and the cached case. *)
Lemma main_load_cached (p : string) (w : world) (m : Model) :
  main_model_cache w = Some m ->
  Main.load_model joblib_load p w = (Ok (Some m), w).
Proof.
  intros H. unfold Main.load_model, bind, Main.get_cache. simpl.
  rewrite H. reflexivity.
Qed.

Lemma main_load_failure (p : string) (w : world) (e : exn) :
  main_model_cache w = None ->
  joblib_load p = Raise e ->
  Main.load_model joblib_load p w =
    (Ok (Some (DummyModel (next_id w))),
     snd (print (WarnDummyModel p e)
            (with_main_cache (Some (DummyModel (next_id w)))
               (with_fresh_id (with_load_logged p w))))).
Proof.
  intros Hc Hl.
  unfold Main.load_model, bind, try_except_M, Main.get_cache,
    call_joblib_load, Main.set_cache, new_DummyModel, print.
  simpl. rewrite Hc, Hl. reflexivity.
Qed.

Lemma main_load_object (p : string) (w : world) f :
  main_model_cache w = None ->
  joblib_load p = Ok (Some f) ->
  let m := {| model_id := next_id w; model_predict := f |} in
  Main.load_model joblib_load p w =
    (Ok (Some m),
     with_main_cache (Some m) (with_fresh_id (with_load_logged p w))).
Proof.
  intros Hc Hl.
  unfold Main.load_model, bind, try_except_M, Main.get_cache,
    call_joblib_load, Main.set_cache.
  simpl. rewrite Hc, Hl. reflexivity.
Qed.

Lemma main_load_none (p : string) (w : world) :
  main_model_cache w = None ->
  joblib_load p = Ok None ->
  Main.load_model joblib_load p w =
    (Ok None, with_main_cache None (with_load_logged p w)).
Proof.
  intros Hc Hl.
  unfold Main.load_model, bind, try_except_M, Main.get_cache,
    call_joblib_load, Main.set_cache.
  simpl. rewrite Hc, Hl. reflexivity.
Qed.

(** [load_model] never raises, and what it returns is what it will
    return again. *)
Lemma main_load_stable (w : world) :
  exists w',
    Main.load_model joblib_load default_model_path w
      = (Ok (resolved_model joblib_load w), w') /\
    resolved_model joblib_load w' = resolved_model joblib_load w.
Proof.
  unfold resolved_model.
  destruct (main_model_cache w) as [m|] eqn:Hc.
  - exists w. rewrite (main_load_cached _ _ _ Hc). auto.
  - destruct (joblib_load default_model_path) as [[f|]|e] eqn:Hl.
    + rewrite (main_load_object _ _ _ Hc Hl). simpl.
      eexists; split; [reflexivity|].
      now rewrite (main_load_cached _ _ {| model_id := next_id w; model_predict := f |}).
    + rewrite (main_load_none _ _ Hc Hl). simpl.
      eexists; split; [reflexivity|].
      now rewrite main_load_none.
    + rewrite (main_load_failure _ _ _ Hc Hl). simpl.
      eexists; split; [reflexivity|].
      now rewrite (main_load_cached _ _ (DummyModel (next_id w))).
Qed.

Variable float_of_str : string -> option float.

Lemma predict_3h_outcome (features : Main.AQIFeatures) (w : world) :
  exists w',
    Main.predict_3h joblib_load features w
      = (Main.call_predict (resolved_model joblib_load w)
           [Main.feature_row features], w') /\
    resolved_model joblib_load w' = resolved_model joblib_load w.
Proof.
  destruct (main_load_stable w) as (w' & Hload & Hst).
  exists w'. split; [|exact Hst].
  unfold Main.predict_3h, bind, lift. now rewrite Hload.
Qed.

(** The guarded call always yields a value: the model's answer, or 50.0
    when the call raised. *)
Lemma predict_or_50_outcome (features : Main.AQIFeatures) (w : world) :
  exists w',
    Main.predict_or_50 joblib_load features w
      = (Ok (or_50 (Main.call_predict (resolved_model joblib_load w)
                      [Main.feature_row features])), w') /\
    resolved_model joblib_load w' = resolved_model joblib_load w.
Proof.
  destruct (predict_3h_outcome features w) as (w' & Hp & Hst).
  exists w'. split; [|exact Hst].
  unfold Main.predict_or_50, try_except_M. rewrite Hp.
  destruct (Main.call_predict _ _); reflexivity.
Qed.

End LoaderFacts.

(** ** Loops *)

Section LoopFacts.

Context {A B : Type}.
Variable body : A -> M B.

(** A loop whose every iteration succeeds under an invariant of the
    state appends one element per item, in order. *)
Lemma for_append_all_ok (I : world -> Prop) (g : A -> B) (items : list A) :
  (forall x w, In x items -> I w ->
     exists w', body x w = (Ok (g x), w') /\ I w') ->
  forall acc w, I w ->
    exists w', for_append items body acc w = (acc ++ map g items, Ok tt, w')
               /\ I w'.
Proof.
  induction items as [|x rest IH]; intros Hbody acc w Hw; simpl.
  - exists w. now rewrite app_nil_r.
  - destruct (Hbody x w) as (w1 & Hx & Hw1); [now left|exact Hw|].
    rewrite Hx.
    destruct (IH (fun y v Hy => Hbody y v (or_intror Hy)) (acc ++ [g x]) w1 Hw1)
      as (w2 & Hrest & Hw2).
    exists w2. split; [|exact Hw2].
    rewrite Hrest. now rewrite <- app_assoc.
Qed.

(** A loop whose first iteration raises leaves the list as it was. *)
Lemma for_append_first_raises (x : A) (rest : list A) (acc : list B)
  (w w' : world) (e : exn) :
  body x w = (Raise e, w') ->
  for_append (x :: rest) body acc w = (acc, Raise e, w').
Proof. intros H. simpl. now rewrite H. Qed.

End LoopFacts.

(** ** Feature construction *)

Lemma string_get_lt (s : string) (k : nat) :
  (k < String.length s)%nat -> exists c, String.get k s = Some c.
Proof.
  revert k. induction s as [|a s IH]; intros k Hk; simpl in *; [lia|].
  destruct k as [|k]; [eauto|]. apply IH. lia.
Qed.

Section FeatureFacts.

Variable float_of_str : string -> option float.

Lemma item_or_None_list (l : list value) (i : Z) :
  0 <= i ->
  Main.item_or_None (VList l) i = Ok (default VNone (l !! Z.to_nat i)).
Proof.
  intros Hi. unfold Main.item_or_None. simpl.
  destruct (i <? Z.of_nat (length l)) eqn:E.
  - apply Z.ltb_lt in E. unfold seq_index.
    replace (0 <=? i) with true by (symmetry; apply Z.leb_le; lia).
    replace (i <? Z.of_nat (length l)) with true by (symmetry; apply Z.ltb_lt; lia).
    simpl.
    destruct (lookup_lt_is_Some_2 l (Z.to_nat i)) as [v Hv]; [lia|].
    now rewrite Hv.
  - apply Z.ltb_ge in E.
    rewrite (proj2 (lookup_ge_None l (Z.to_nat i))); [reflexivity|lia].
Qed.

Lemma indexable_list (v : value) (i : Z) :
  is_list v = true -> 0 <= i -> indexable v i.
Proof.
  destruct v; try discriminate. intros _ Hi.
  eexists. now apply item_or_None_list.
Qed.

(** Whatever the JSON value, if index 0 can be read, so can every
    non-negative index. *)
Lemma indexable_mono (v : value) (i : Z) :
  indexable v 0 -> 0 <= i -> indexable v i.
Proof.
  intros [x0 H0] Hi.
  destruct v as [| | | |s|l|d];
    try (apply indexable_list; [reflexivity|exact Hi]);
    unfold indexable, Main.item_or_None in *; simpl in *; try discriminate.
  - destruct (i <? Z.of_nat (String.length s)) eqn:E; [|eauto].
    apply Z.ltb_lt in E. unfold seq_index.
    replace (0 <=? i) with true by (symmetry; apply Z.leb_le; lia).
    replace (i <? Z.of_nat (String.length s)) with true
      by (symmetry; apply Z.ltb_lt; lia).
    simpl.
    destruct (string_get_lt s (Z.to_nat i)) as [c Hc]; [lia|].
    rewrite Hc. eauto.
  - destruct (0 <? Z.of_nat (size d)) eqn:E0; [discriminate|].
    apply Z.ltb_ge in E0.
    replace (i <? Z.of_nat (size d)) with false
      by (symmetry; apply Z.ltb_ge; lia).
    eauto.
Qed.

(** A feature vector is built exactly when each of the seven series can
    be read at the index. *)
Lemma build_features_ok_iff (r : Main.hourly_arrays) (i : Z) :
  (exists f, Main.build_features float_of_str r i = Ok f) <->
  indexable (Main.pm25_vals r) i /\ indexable (Main.pm10_vals r) i /\
  indexable (Main.no2_vals r) i /\ indexable (Main.nh3_vals r) i /\
  indexable (Main.co_vals r) i /\ indexable (Main.so2_vals r) i /\
  indexable (Main.o3_vals r) i.
Proof.
  unfold indexable, Main.build_features. split.
  - intros [f H].
    repeat match type of H with
           | context [Main.item_or_None ?v i] =>
               destruct (Main.item_or_None v i) eqn:?; simpl in H;
               [|discriminate]
           | context [Main._safe_num float_of_str ?x ?d] =>
               destruct (Main._safe_num float_of_str x d) eqn:?; simpl in H;
               [|discriminate]
           end.
    repeat split; eauto.
  - intros ([? H1] & [? H2] & [? H3] & [? H4] & [? H5] & [? H6] & [? H7]).
    rewrite H1, H2, H3, H4, H5, H6, H7. simpl.
    repeat match goal with
           | |- context [Main._safe_num float_of_str ?x ?d] =>
               let f := fresh "f" in
               let Hf := fresh "Hf" in
               destruct (safe_num_total float_of_str x d) as [f Hf];
               rewrite Hf; simpl
           end.
    eauto.
Qed.


Lemma build_features_lists (r : Main.hourly_arrays) (i : Z) :
  pollutant_arrays r -> 0 <= i ->
  Main.build_features float_of_str r i = Ok (features_at float_of_str r i).
Proof.
  intros (H1 & H2 & H3 & H4 & H5 & H6 & H7) Hi.
  assert (exists f, Main.build_features float_of_str r i = Ok f) as [f Hf].
  { apply build_features_ok_iff. repeat split; now apply indexable_list. }
  unfold features_at. now rewrite Hf.
Qed.

(** [NO] is the constant of the constructor call. *)
Lemma build_features_NO (r : Main.hourly_arrays) (i : Z) (f : Main.AQIFeatures) :
  Main.build_features float_of_str r i = Ok f -> Main.NO f = Float64.zero.
Proof.
  unfold Main.build_features. intros H.
  repeat match type of H with
         | context [Main.item_or_None ?v i] =>
             destruct (Main.item_or_None v i) eqn:?; simpl in H;
             [|discriminate]
         | context [Main._safe_num float_of_str ?x ?d] =>
             destruct (Main._safe_num float_of_str x d) eqn:?; simpl in H;
             [|discriminate]
         end.
  inversion H. reflexivity.
Qed.

End FeatureFacts.

(** ** The two forecast loops on well-formed arrays *)

Lemma enumerate_index_nonneg {A} (items : list A) (i : Z) (a : A) :
  In (i, a) (enumerate items) -> 0 <= i.
Proof.
  unfold enumerate. rewrite <- list_elem_of_In, elem_of_lookup_imap.
  intros (k & y & Heq & _). inversion Heq. lia.
Qed.

Lemma py_range_bounds (n : nat) (d : Z) :
  In d (py_range n) -> 0 <= d < Z.of_nat n.
Proof.
  unfold py_range. rewrite in_map_iff. intros (k & <- & Hk).
  apply in_seq in Hk. lia.
Qed.

Lemma add_days_in_range (today : date) (d : Z) :
  horizon_representable today -> 0 <= d < 30 ->
  Datetime.add_days today (d + 1)
    = Ok {| Datetime.toordinal := Datetime.toordinal today + (d + 1) |}.
Proof.
  unfold horizon_representable, Datetime.add_days.
  intros [Hlo Hhi] Hd. cbv zeta.
  replace (Datetime.MINORDINAL <=? Datetime.toordinal today + (d + 1)) with true
    by (symmetry; apply Z.leb_le; lia).
  replace (Datetime.toordinal today + (d + 1) <=? Datetime.MAXORDINAL) with true
    by (symmetry; apply Z.leb_le; lia).
  reflexivity.
Qed.

Section ForecastFacts.

Variable float_of_str : string -> option float.
Variable joblib_load : loader.

Lemma hourly_hour_ok (r : Main.hourly_arrays) (item : Z * value) (w : world)
  (f : Main.AQIFeatures) :
  Main.build_features float_of_str r (fst item) = Ok f ->
  exists w',
    Main.hourly_hour float_of_str joblib_load r item w
      = (Ok (hourly_point float_of_str r (resolved_model joblib_load w) item), w')
    /\ resolved_model joblib_load w' = resolved_model joblib_load w.
Proof.
  intros Hf. destruct item as [i ts]. simpl in Hf.
  destruct (predict_or_50_outcome joblib_load f w) as (w' & Hp & Hst).
  exists w'. split; [|exact Hst].
  unfold Main.hourly_hour, bind, lift, ret. rewrite Hf, Hp.
  unfold hourly_point, features_at. simpl. now rewrite Hf.
Qed.

(** The hourly loop on arrays: one entry per timestamp among the first
    24, in order. *)
Lemma build_hourly_today_lists (r : Main.hourly_arrays) (ts : list value)
  (w : world) :
  Main.timestamps r = VList ts ->
  pollutant_arrays r ->
  exists w',
    Main.build_hourly_today float_of_str joblib_load r w
      = (map (hourly_point float_of_str r (resolved_model joblib_load w))
           (enumerate (take 24 ts)),
         Ok tt, w').
Proof.
  intros Hts Harr. unfold Main.build_hourly_today. rewrite Hts. simpl.
  destruct (for_append_all_ok
              (Main.hourly_hour float_of_str joblib_load r)
              (fun v => resolved_model joblib_load v = resolved_model joblib_load w)
              (hourly_point float_of_str r (resolved_model joblib_load w))
              (enumerate (take 24 ts))) with (acc := @nil Main.HourlyPoint) (w := w)
    as (w' & Hloop & _).
  - intros [i t] v Hin Hv.
    destruct (hourly_hour_ok r (i, t) v (features_at float_of_str r i))
      as (v' & Hstep & Hv').
    + simpl. apply build_features_lists; [exact Harr|].
      now apply enumerate_index_nonneg in Hin.
    + exists v'. rewrite Hstep, Hv. split; [reflexivity|congruence].
  - reflexivity.
  - exists w'. exact Hloop.
Qed.

Lemma forecast30_day_ok (r : Main.hourly_arrays) (today : date) (d n : Z)
  (w : world) (f : Main.AQIFeatures) :
  py_len (Main.timestamps r) = Ok n ->
  Main.build_features float_of_str r (Z.min d (n - 1)) = Ok f ->
  horizon_representable today -> 0 <= d < 30 ->
  exists w',
    Main.forecast30_day float_of_str joblib_load r today d w
      = (Ok (forecast_point float_of_str r n today (resolved_model joblib_load w) d), w')
    /\ resolved_model joblib_load w' = resolved_model joblib_load w.
Proof.
  intros Hn Hf Hday Hd.
  destruct (predict_or_50_outcome joblib_load f w) as (w' & Hp & Hst).
  exists w'. split; [|exact Hst].
  unfold Main.forecast30_day, bind, lift, ret. rewrite Hn, Hf, Hp.
  rewrite (add_days_in_range today d Hday Hd).
  unfold forecast_point, features_at. now rewrite Hf.
Qed.

(** The 30-day loop completes with one entry per day offset as soon as
    a feature vector can be built at every source index. *)
Lemma build_forecast_30d_complete (r : Main.hourly_arrays) (today : date)
  (n : Z) (w : world) :
  py_len (Main.timestamps r) = Ok n ->
  (forall d, 0 <= d < 30 ->
     exists f, Main.build_features float_of_str r (Z.min d (n - 1)) = Ok f) ->
  horizon_representable today ->
  exists w',
    Main.build_forecast_30d float_of_str joblib_load r today w
      = (map (forecast_point float_of_str r n today (resolved_model joblib_load w))
           (py_range 30),
         Ok tt, w').
Proof.
  intros Hn Hfeat Hday. unfold Main.build_forecast_30d.
  destruct (for_append_all_ok
              (Main.forecast30_day float_of_str joblib_load r today)
              (fun v => resolved_model joblib_load v = resolved_model joblib_load w)
              (forecast_point float_of_str r n today (resolved_model joblib_load w))
              (py_range 30)) with (acc := @nil Main.ForecastPoint) (w := w)
    as (w' & Hloop & _).
  - intros d v Hin Hv. apply py_range_bounds in Hin.
    destruct (Hfeat d) as [f Hf]; [lia|].
    destruct (forecast30_day_ok r today d n v f Hn Hf Hday) as (v' & Hstep & Hv');
      [lia|].
    exists v'. rewrite Hstep, Hv. split; [reflexivity|congruence].
  - reflexivity.
  - exists w'. exact Hloop.
Qed.

Lemma build_forecast_30d_lists (r : Main.hourly_arrays) (today : date)
  (ts : list value) (w : world) :
  Main.timestamps r = VList ts -> ts <> [] ->
  pollutant_arrays r ->
  horizon_representable today ->
  exists w',
    Main.build_forecast_30d float_of_str joblib_load r today w
      = (map (forecast_point float_of_str r (Z.of_nat (length ts)) today
                (resolved_model joblib_load w))
           (py_range 30),
         Ok tt, w').
Proof.
  intros Hts Hne Harr Hday.
  apply build_forecast_30d_complete; [now rewrite Hts| |exact Hday].
  intros d Hd. eexists. apply build_features_lists; [exact Harr|].
  destruct ts; [congruence|]. simpl length. lia.
Qed.

End ForecastFacts.

(** * The claims *)

(** ** Safe numeric coercion *)

(** C1. For every JSON value [x], [_safe_num(x)] returns and never raises;
    it returns the default (0.0 at every call site) when [x] is [None] or
    when [float(x)] fails, and it returns [float(x)] exactly when the
    conversion succeeds. *)
Theorem safe_num_coercion (float_of_str : string -> option float)
  (x : value) (default : float) :
  exists f,
    Main._safe_num float_of_str x default = Ok f /\
    (x = VNone \/ (exists e, py_float float_of_str x = Raise e) -> f = default) /\
    (forall y, py_float float_of_str x = Ok y -> f = y).
Proof.
  unfold Main._safe_num, try_except.
  destruct x; simpl;
    try (eexists; split; [reflexivity|];
         split; [reflexivity || (intros [?|[? ?]]; discriminate)
                |intros ? ?; congruence]).
  - destruct (int_to_float z) as [f|e] eqn:E.
    + exists f. split; [reflexivity|]. split.
      * intros [?|[? ?]]; discriminate.
      * intros y [= <-]. reflexivity.
    + exists default. split; [reflexivity|]. split; [reflexivity|discriminate].
  - destruct (float_of_str s) as [f|] eqn:E.
    + exists f. split; [reflexivity|]. split.
      * intros [?|[? ?]]; discriminate.
      * intros y [= <-]. reflexivity.
    + exists default. split; [reflexivity|]. split; [reflexivity|discriminate].
Qed.

Lemma safe_num_coercion_witness :
  Main._safe_num toy_parser (VStr "n/a") Float64.zero = Ok Float64.zero /\
  Main._safe_num toy_parser (VStr "1.5") Float64.zero = Ok (Float64.dec 15 1) /\
  Main._safe_num toy_parser (VInt 3) Float64.zero = Ok (Float64.of_Z 3).
Proof.
  split; [|split].
  - destruct (safe_num_coercion toy_parser (VStr "n/a") Float64.zero)
      as (f & Hf & Hdef & _).
    rewrite Hf. f_equal. apply Hdef. right. exists ValueError. reflexivity.
  - destruct (safe_num_coercion toy_parser (VStr "1.5") Float64.zero)
      as (f & Hf & _ & Hconv).
    rewrite Hf. f_equal. apply Hconv. reflexivity.
  - destruct (safe_num_coercion toy_parser (VInt 3) Float64.zero)
      as (f & Hf & _ & Hconv).
    rewrite Hf. f_equal. apply Hconv. reflexivity.
Defined.

(** ** Lists of points *)

Lemma lookup_map {A B} (g : A -> B) (l : list A) (k : nat) :
  map g l !! k = option_map g (l !! k).
Proof.
  revert k. induction l as [|a l IH]; intros [|k]; simpl; auto.
Qed.

Lemma py_range_lookup (n k : nat) :
  (k < n)%nat -> py_range n !! k = Some (Z.of_nat k).
Proof.
  intros Hk. unfold py_range. rewrite lookup_map.
  now rewrite lookup_seq_lt.
Qed.

Lemma py_range_length (n : nat) : length (py_range n) = n.
Proof. unfold py_range. now rewrite length_map, length_seq. Qed.

Lemma enumerate_length {A} (items : list A) :
  length (enumerate items) = length items.
Proof. unfold enumerate. apply length_imap. Qed.

Lemma enumerate_lookup {A} (items : list A) (k : nat) :
  enumerate items !! k = option_map (fun a => (Z.of_nat k, a)) (items !! k).
Proof.
  unfold enumerate. rewrite list_lookup_imap.
  destruct (items !! k); reflexivity.
Qed.

(** ** The 30-day forecast *)

(** C3. For every non-empty timestamps array and any pollutant arrays,
    the 30-day loop ends normally with exactly 30 points; the point of
    rank [k] is dated [today + (k + 1)] days, so the dates are the
    consecutive calendar days that start the day after [today], and every
    [predicted_aqi] is [>= 0.0].  The thirty dates are assumed to exist
    in the calendar ([today + 30] is no later than 9999-12-31). *)
Theorem forecast30_thirty_consecutive_days
  (float_of_str : string -> option float) (joblib_load : loader)
  (r : Main.hourly_arrays) (today : date) (ts : list value) (w : world) :
  Main.timestamps r = VList ts -> ts <> [] ->
  pollutant_arrays r ->
  horizon_representable today ->
  exists pts w',
    Main.build_forecast_30d float_of_str joblib_load r today w = (pts, Ok tt, w') /\
    length pts = 30%nat /\
    (forall k, (k < 30)%nat ->
       exists p, pts !! k = Some p /\
         Datetime.toordinal (Main.fp_date p)
           = Datetime.toordinal today + Z.of_nat k + 1 /\
         Float64.leb Float64.zero (Main.fp_predicted_aqi p) = true) /\
    (forall k p q, pts !! k = Some p -> pts !! S k = Some q ->
       Datetime.toordinal (Main.fp_date q)
         = Datetime.toordinal (Main.fp_date p) + 1).
Proof.
  intros Hts Hne Harr Hday.
  destruct (build_forecast_30d_lists float_of_str joblib_load r today ts w
              Hts Hne Harr Hday) as (w' & Hloop).
  eexists _, w'. split; [exact Hloop|].
  split; [now rewrite length_map, py_range_length|].
  split.
  - intros k Hk. rewrite lookup_map, (py_range_lookup 30 k Hk). simpl.
    eexists. split; [reflexivity|]. simpl. split; [lia|].
    apply py_max_zero_nonneg.
  - intros k p q. rewrite !lookup_map.
    destruct (py_range 30 !! k) as [d|] eqn:Ed; [|discriminate].
    destruct (py_range 30 !! S k) as [d'|] eqn:Ed'; [|discriminate].
    assert (k < 30)%nat as Hk
      by (apply lookup_lt_Some in Ed; now rewrite py_range_length in Ed).
    assert (S k < 30)%nat as Hk'
      by (apply lookup_lt_Some in Ed'; now rewrite py_range_length in Ed').
    rewrite (py_range_lookup 30 k Hk) in Ed.
    rewrite (py_range_lookup 30 (S k) Hk') in Ed'.
    injection Ed as <-. injection Ed' as <-.
    simpl. intros [= <-] [= <-]. simpl. lia.
Qed.

Lemma forecast30_thirty_consecutive_days_witness :
  exists pts w',
    Main.build_forecast_30d toy_parser first_feature_artifact scenario a_day
      initial_world = (pts, Ok tt, w') /\
    length pts = 30%nat.
Proof.
  destruct (forecast30_thirty_consecutive_days toy_parser first_feature_artifact
              scenario a_day [VStr "t0"; VStr "t1"] initial_world)
    as (pts & w' & Hrun & Hlen & _).
  - reflexivity.
  - discriminate.
  - repeat split.
  - split; vm_compute; discriminate.
  - exists pts, w'. split; [exact Hrun|exact Hlen].
Defined.

(** ** The hourly series *)

(** C4. For every timestamps array and pollutant arrays, the hourly loop
    ends normally with [min(24, len(timestamps))] entries, hence no more
    than that; the entry of rank [k] carries the upstream timestamp of
    rank [k], and its value is element 0 of what the [predict] method of
    the object returned by [load_model()] answers on the one-row batch of
    the features built at index [k], unchanged (no clamp), or exactly
    50.0 when the prediction failed: [predict] raised, answered nothing,
    or [load_model()] returned [None]. *)
Theorem hourly_today_series
  (float_of_str : string -> option float) (joblib_load : loader)
  (r : Main.hourly_arrays) (ts : list value) (w : world) :
  Main.timestamps r = VList ts ->
  pollutant_arrays r ->
  exists pts w' model w0,
    Main.build_hourly_today float_of_str joblib_load r w = (pts, Ok tt, w') /\
    Main.load_model joblib_load default_model_path w = (Ok model, w0) /\
    length pts = Nat.min 24 (length ts) /\
    (length pts <= Nat.min 24 (length ts))%nat /\
    (forall k p, pts !! k = Some p ->
       ts !! k = Some (Main.hp_time p) /\
       exists features,
         Main.build_features float_of_str r (Z.of_nat k) = Ok features /\
         match model with
         | Some m =>
             match model_predict m [Main.feature_row features] with
             | Ok (y :: _) => Main.hp_predicted_aqi p = y
             | Ok [] => Main.hp_predicted_aqi p = Float64.of_Z 50
             | Raise _ => Main.hp_predicted_aqi p = Float64.of_Z 50
             end
         | None => Main.hp_predicted_aqi p = Float64.of_Z 50
         end).
Proof.
  intros Hts Harr.
  destruct (build_hourly_today_lists float_of_str joblib_load r ts w Hts Harr)
    as (w' & Hloop).
  destruct (main_load_stable joblib_load w) as (w0 & Hload & _).
  eexists _, w', (resolved_model joblib_load w), w0.
  split; [exact Hloop|]. split; [exact Hload|].
  assert (length (map (hourly_point float_of_str r (resolved_model joblib_load w))
                    (enumerate (take 24 ts))) = Nat.min 24 (length ts)) as Hlen
    by now rewrite length_map, enumerate_length, length_take.
  split; [exact Hlen|]. split; [now rewrite Hlen|].
  intros k p. rewrite lookup_map, enumerate_lookup.
  destruct (take 24 ts !! k) as [t|] eqn:Et; [|discriminate].
  cbn [option_map]. intros [= <-].
  unfold hourly_point. cbn [Main.hp_time Main.hp_predicted_aqi fst snd].
  apply lookup_take_Some in Et as [Et _]. split; [exact Et|].
  exists (features_at float_of_str r (Z.of_nat k)).
  split; [apply build_features_lists; [exact Harr|lia]|].
  unfold Main.call_predict, result_bind.
  destruct (resolved_model joblib_load w) as [m|]; [|reflexivity].
  destruct (model_predict m [Main.feature_row (features_at float_of_str r (Z.of_nat k))])
    as [[|y ys]|e]; reflexivity.
Qed.

Lemma hourly_today_series_witness :
  exists pts w',
    Main.build_hourly_today toy_parser first_feature_artifact scenario
      initial_world = (pts, Ok tt, w') /\
    length pts = 2%nat /\
    (forall p, pts !! 0%nat = Some p ->
       Main.hp_time p = VStr "t0" /\ Main.hp_predicted_aqi p = Float64.of_Z 10) /\
    (forall p, pts !! 1%nat = Some p ->
       Main.hp_time p = VStr "t1" /\ Main.hp_predicted_aqi p = Float64.of_Z 20).
Proof.
  destruct (hourly_today_series toy_parser first_feature_artifact scenario
              [VStr "t0"; VStr "t1"] initial_world)
    as (pts & w' & model & w0 & Hrun & Hload & Hlen & _ & Hpts).
  - reflexivity.
  - repeat split.
  - rewrite (main_load_object first_feature_artifact default_model_path
               initial_world first_feature_model eq_refl eq_refl) in Hload.
    injection Hload as <- _.
    exists pts, w'. split; [exact Hrun|]. split; [exact Hlen|].
    assert (Main.build_features toy_parser scenario 0 = Ok scenario_features_0)
      as H0 by (vm_compute; reflexivity).
    assert (Main.build_features toy_parser scenario 1 = Ok scenario_features_1)
      as H1 by (vm_compute; reflexivity).
    split.
    + intros p Hp. destruct (Hpts 0%nat p Hp) as (Ht & f & Hf & Hv).
      split; [now injection Ht as <-|].
      change (Z.of_nat 0) with 0 in Hf. rewrite H0 in Hf. injection Hf as <-.
      exact Hv.
    + intros p Hp. destruct (Hpts 1%nat p Hp) as (Ht & f & Hf & Hv).
      split; [now injection Ht as <-|].
      change (Z.of_nat 1) with 1 in Hf. rewrite H1 in Hf. injection Hf as <-.
      exact Hv.
Defined.

(** ** Failure isolation *)

(** C5. In both loops a prediction call that fails costs its own point
    only: that point gets exactly 50.0 (which the clamp of the 30-day loop
    leaves at 50.0), every other point keeps the model's answer for its
    own sample, and both loops still run to their full length, whichever
    calls fail. *)
Theorem prediction_failure_is_isolated
  (float_of_str : string -> option float) (joblib_load : loader)
  (r : Main.hourly_arrays) (today : date) (ts : list value) (w : world) :
  Main.timestamps r = VList ts -> ts <> [] ->
  pollutant_arrays r ->
  horizon_representable today ->
  let answer (i : Z) :=
    Main.call_predict (resolved_model joblib_load w)
      [Main.feature_row (features_at float_of_str r i)] in
  exists hourly w1 daily w2,
    Main.build_hourly_today float_of_str joblib_load r w = (hourly, Ok tt, w1) /\
    Main.build_forecast_30d float_of_str joblib_load r today w = (daily, Ok tt, w2) /\
    length hourly = Nat.min 24 (length ts) /\
    length daily = 30%nat /\
    (forall k p, hourly !! k = Some p ->
       (forall e, answer (Z.of_nat k) = Raise e ->
          Main.hp_predicted_aqi p = Float64.of_Z 50) /\
       (forall v, answer (Z.of_nat k) = Ok v ->
          Main.hp_predicted_aqi p = v)) /\
    (forall d p, daily !! d = Some p ->
       let i := Z.min (Z.of_nat d) (Z.of_nat (length ts) - 1) in
       (forall e, answer i = Raise e ->
          Main.fp_predicted_aqi p = Float64.of_Z 50) /\
       (forall v, answer i = Ok v ->
          Main.fp_predicted_aqi p = py_max Float64.zero v)).
Proof.
  intros Hts Hne Harr Hday answer.
  destruct (build_hourly_today_lists float_of_str joblib_load r ts w Hts Harr)
    as (w1 & Hhourly).
  destruct (build_forecast_30d_lists float_of_str joblib_load r today ts w
              Hts Hne Harr Hday) as (w2 & Hdaily).
  eexists _, w1, _, w2.
  split; [exact Hhourly|]. split; [exact Hdaily|].
  split; [now rewrite length_map, enumerate_length, length_take|].
  split; [now rewrite length_map, py_range_length|].
  split.
  - intros k p. rewrite lookup_map, enumerate_lookup.
    destruct (take 24 ts !! k) as [t|]; [|discriminate].
    simpl. intros [= <-]. unfold hourly_point. simpl. fold (answer (Z.of_nat k)).
    split; intros ? ->; reflexivity.
  - intros d p. rewrite lookup_map.
    destruct (py_range 30 !! d) as [z|] eqn:Ed; [|discriminate].
    assert (d < 30)%nat as Hd
      by (apply lookup_lt_Some in Ed; now rewrite py_range_length in Ed).
    rewrite (py_range_lookup 30 d Hd) in Ed. injection Ed as <-.
    simpl. intros [= <-]. unfold forecast_point. simpl.
    fold (answer (Z.min (Z.of_nat d) (Z.of_nat (length ts) - 1))).
    split; intros ? ->; reflexivity.
Qed.

Lemma prediction_failure_is_isolated_witness :
  exists hourly daily,
    fst (fst (Main.build_hourly_today toy_parser first_feature_artifact
                flaky_scenario initial_world)) = hourly /\
    fst (fst (Main.build_forecast_30d toy_parser first_feature_artifact
                flaky_scenario a_day initial_world)) = daily /\
    length hourly = 3%nat /\ length daily = 30%nat /\
    (forall p, hourly !! 0%nat = Some p ->
       Main.hp_predicted_aqi p = Float64.of_Z 50) /\
    (forall p, hourly !! 2%nat = Some p ->
       Main.hp_predicted_aqi p = Float64.of_Z (-3)) /\
    (forall p, daily !! 2%nat = Some p ->
       Main.fp_predicted_aqi p = Float64.zero).
Proof.
  destruct (prediction_failure_is_isolated toy_parser first_feature_artifact
              flaky_scenario a_day [VStr "t0"; VStr "t1"; VStr "t2"] initial_world)
    as (hourly & w1 & daily & w2 & Hh & Hd & Hlh & Hld & Hhourly & Hdaily).
  - reflexivity.
  - discriminate.
  - repeat split.
  - split; vm_compute; discriminate.
  - exists hourly, daily. rewrite Hh, Hd.
    split; [reflexivity|]. split; [reflexivity|].
    split; [exact Hlh|]. split; [exact Hld|].
    split; [|split].
    + intros p Hp. destruct (Hhourly 0%nat p Hp) as [Hfail _].
      apply (Hfail ValueError). reflexivity.
    + intros p Hp. destruct (Hhourly 2%nat p Hp) as [_ Hok].
      apply Hok. reflexivity.
    + intros p Hp. destruct (Hdaily 2%nat p Hp) as [_ Hok].
      apply (Hok (Float64.of_Z (-3))). reflexivity.
Defined.

(** ** The worked scenario *)

Lemma scenario_value_0 (float_of_str : string -> option float) :
  py_max Float64.zero
    (or_50 (Main.call_predict (Some (DummyModel 0))
              [Main.feature_row (features_at float_of_str scenario 0)]))
  = Float64.dec 6466 2.
Proof. vm_compute. reflexivity. Qed.

Lemma scenario_value_1 (float_of_str : string -> option float) :
  py_max Float64.zero
    (or_50 (Main.call_predict (Some (DummyModel 0))
              [Main.feature_row (features_at float_of_str scenario 1)]))
  = Float64.dec 7787 2.
Proof. vm_compute. reflexivity. Qed.

Lemma min_succ_last (k : nat) (n : Z) :
  n = 2 -> Z.min (Z.of_nat (S k)) (n - 1) = 1.
Proof. lia. Qed.

Lemma call_predict_ext (m m' : Model) (X : list (list float)) :
  model_predict m = model_predict m' ->
  Main.call_predict (Some m) X = Main.call_predict (Some m') X.
Proof. intros H. unfold Main.call_predict. now rewrite H. Qed.

(** C2. With the arrays of the scenario, two timestamps and the fallback
    predictor [sum * 0.1 + 50]: the features at index 0 are
    [10, 5, 1, 0, 0.1, 100, 0.5, 30] with sum 146.6, those at index 1 are
    [20, 15, 2, 0, 0.2, 200, 1.5, 40] with sum 278.7 (as NumPy adds them,
    pairwise, and also left to right); the loop yields 30 points, day 1 valued 64.66 from index 0 and
    days 2 to 30 all valued 77.87 from index 1, each [>= 0.0]. *)
Theorem scenario_forecast
  (float_of_str : string -> option float) (joblib_load : loader)
  (today : date) (w : world) :
  horizon_representable today ->
  (exists m, resolved_model joblib_load w = Some m /\
             model_predict m = DummyModel_predict) ->
  Main.build_features float_of_str scenario 0 = Ok scenario_features_0 /\
  Main.build_features float_of_str scenario 1 = Ok scenario_features_1 /\
  Numpy.row_sum (Main.feature_row scenario_features_0) = Float64.dec 1466 1 /\
  Numpy.row_sum (Main.feature_row scenario_features_1) = Float64.dec 2787 1 /\
  Numpy.row_sum_pairwise8 (Main.feature_row scenario_features_0)
    = Some (Float64.dec 1466 1) /\
  Numpy.row_sum_pairwise8 (Main.feature_row scenario_features_1)
    = Some (Float64.dec 2787 1) /\
  Numpy.sequential_sum Float64.zero (Main.feature_row scenario_features_0)
    = Float64.dec 1466 1 /\
  Numpy.sequential_sum Float64.zero (Main.feature_row scenario_features_1)
    = Float64.dec 2787 1 /\
  exists pts w',
    Main.build_forecast_30d float_of_str joblib_load scenario today w
      = (pts, Ok tt, w') /\
    length pts = 30%nat /\
    (forall k, (k < 30)%nat ->
       pts !! k =
         Some {| Main.fp_date :=
                   {| Datetime.toordinal := Datetime.toordinal today + Z.of_nat k + 1 |};
                 Main.fp_predicted_aqi :=
                   if Nat.eqb k 0 then Float64.dec 6466 2 else Float64.dec 7787 2 |}) /\
    (forall k p, pts !! k = Some p ->
       Float64.leb Float64.zero (Main.fp_predicted_aqi p) = true) /\
    (forall j k p q, (1 <= j)%nat -> (1 <= k)%nat ->
       pts !! j = Some p -> pts !! k = Some q ->
       Main.fp_predicted_aqi p = Main.fp_predicted_aqi q).
Proof.
  intros Hday (m & Hres & Hm).
  do 8 (split; [vm_compute; reflexivity|]).
  destruct (build_forecast_30d_lists float_of_str joblib_load scenario today
              [VStr "t0"; VStr "t1"] w) as (w' & Hloop);
    [reflexivity|discriminate|repeat split|exact Hday|].
  eexists _, w'. split; [exact Hloop|].
  split; [now rewrite length_map, py_range_length|].
  assert (forall k, (k < 30)%nat ->
            map (forecast_point float_of_str scenario
                   (Z.of_nat (length [VStr "t0"; VStr "t1"])) today
                   (resolved_model joblib_load w)) (py_range 30) !! k =
            Some {| Main.fp_date :=
                      {| Datetime.toordinal := Datetime.toordinal today + Z.of_nat k + 1 |};
                    Main.fp_predicted_aqi :=
                      if Nat.eqb k 0 then Float64.dec 6466 2 else Float64.dec 7787 2 |})
    as Hpts.
  { intros k Hk. rewrite lookup_map, (py_range_lookup 30 k Hk). simpl option_map.
    f_equal. unfold forecast_point. rewrite Hres.
    rewrite (call_predict_ext m (DummyModel 0)) by exact Hm.
    f_equal.
    - f_equal. lia.
    - destruct k as [|k].
      + apply scenario_value_0.
      + match goal with
        | |- context [Z.min (Z.of_nat (S k)) (?n - 1)] =>
            rewrite (min_succ_last k n eq_refl)
        end.
        apply scenario_value_1. }
  split; [exact Hpts|]. split.
  - intros k p Hp.
    assert (k < 30)%nat as Hk.
    { apply lookup_lt_Some in Hp. now rewrite length_map, py_range_length in Hp. }
    rewrite (Hpts k Hk) in Hp. injection Hp as <-. simpl.
    destruct (Nat.eqb k 0); vm_compute; reflexivity.
  - intros j k p q Hj Hk Hp Hq.
    assert (j < 30)%nat as Hj'.
    { apply lookup_lt_Some in Hp. now rewrite length_map, py_range_length in Hp. }
    assert (k < 30)%nat as Hk'.
    { apply lookup_lt_Some in Hq. now rewrite length_map, py_range_length in Hq. }
    rewrite (Hpts j Hj') in Hp. rewrite (Hpts k Hk') in Hq.
    injection Hp as <-. injection Hq as <-. simpl.
    destruct j; [lia|]. destruct k; [lia|]. reflexivity.
Qed.

Lemma scenario_forecast_witness :
  exists pts w',
    Main.build_forecast_30d toy_parser missing_artifact scenario a_day initial_world
      = (pts, Ok tt, w') /\
    pts !! 0%nat =
      Some {| Main.fp_date := {| Datetime.toordinal := 739924 |};
              Main.fp_predicted_aqi := Float64.dec 6466 2 |} /\
    pts !! 29%nat =
      Some {| Main.fp_date := {| Datetime.toordinal := 739953 |};
              Main.fp_predicted_aqi := Float64.dec 7787 2 |}.
Proof.
  destruct (scenario_forecast toy_parser missing_artifact a_day initial_world)
    as (_ & _ & _ & _ & _ & _ & _ & _ & pts & w' & Hrun & _ & Hpts & _).
  - split; vm_compute; discriminate.
  - eexists. split; reflexivity.
  - exists pts, w'. split; [exact Hrun|]. split.
    + rewrite (Hpts 0%nat) by lia. reflexivity.
    + rewrite (Hpts 29%nat) by lia. reflexivity.
Defined.

(** ** Feature vectors *)

Section FeatureFields.

Variable float_of_str : string -> option float.

Lemma safe_num_result (x : value) (d f : float) :
  Main._safe_num float_of_str x d = Ok f ->
  py_float float_of_str x = Ok f \/
  ((x = VNone \/ exists e, py_float float_of_str x = Raise e) /\ f = d).
Proof.
  unfold Main._safe_num, try_except.
  destruct x; simpl;
    try (intros [= <-]; (now left) || (right; split; [|reflexivity]; eauto)).
  - destruct (int_to_float z) as [v|e]; intros [= <-]; [now left|].
    right. split; [|reflexivity]. eauto.
  - destruct (float_of_str s) as [v|]; intros [= <-]; [now left|].
    right. split; [|reflexivity]. eauto.
Qed.

(** What [build_features] returned, field by field. *)
Lemma build_features_fields (r : Main.hourly_arrays) (i : Z) (f : Main.AQIFeatures) :
  Main.build_features float_of_str r i = Ok f ->
  let field vals v :=
    exists x, Main.item_or_None vals i = Ok x /\
              Main._safe_num float_of_str x Float64.zero = Ok v in
  field (Main.pm25_vals r) (Main.PM25 f) /\
  field (Main.pm10_vals r) (Main.PM10 f) /\
  field (Main.no2_vals r) (Main.NO2 f) /\
  field (Main.nh3_vals r) (Main.NH3 f) /\
  field (Main.co_vals r) (Main.CO f) /\
  field (Main.so2_vals r) (Main.SO2 f) /\
  field (Main.o3_vals r) (Main.O3 f).
Proof.
  unfold Main.build_features. intros H.
  repeat match type of H with
         | context [Main.item_or_None ?v i] =>
             destruct (Main.item_or_None v i) eqn:?; simpl in H;
             [|discriminate]
         | context [Main._safe_num float_of_str ?x ?d] =>
             destruct (Main._safe_num float_of_str x d) eqn:?; simpl in H;
             [|discriminate]
         end.
  inversion H. simpl. repeat split; eauto.
Qed.

Lemma item_or_None_reading (vals : value) (i : Z) :
  is_list vals = true -> 0 <= i ->
  Main.item_or_None vals i = Ok (reading_at vals i).
Proof.
  destruct vals; try discriminate. intros _ Hi.
  now apply item_or_None_list.
Qed.

Lemma field_coerced (vals : value) (i : Z) (v : float) :
  is_list vals = true -> 0 <= i ->
  (exists x, Main.item_or_None vals i = Ok x /\
             Main._safe_num float_of_str x Float64.zero = Ok v) ->
  coerced float_of_str vals i v.
Proof.
  intros Hl Hi (x & Hx & Hv).
  rewrite (item_or_None_reading vals i Hl Hi) in Hx. injection Hx as <-.
  unfold coerced. now apply safe_num_result.
Qed.

Lemma coerced_finite (vals : value) (i : Z) (v : float) :
  coerced float_of_str vals i v ->
  finite_reading float_of_str vals i ->
  Float64.is_finite v = true.
Proof.
  intros [Hc|[_ ->]] Hfin; [now apply Hfin|reflexivity].
Qed.

End FeatureFields.

(** C6 as stated fails: a reading that is an infinity is passed through,
    and the vector built from it has a field that is not finite. *)
Lemma features_not_always_finite :
  exists f,
    Main.build_features toy_parser infinite_reading 0 = Ok f /\
    Main.PM25 f = Float64.infinity /\
    all_finite f = false.
Proof. eexists. repeat split. Qed.

(** C6, amended. At every index [i >= 0] of pollutant arrays a feature
    vector is built without error; its eight fields are floats, [NO] is
    0.0, and every other field is [float(reading)] when the reading at
    [i] is present and converts, and the default 0.0 when the reading is
    past the end of its array, null or not convertible.  All fields are
    finite when every reading that converts converts to a finite float. *)
Theorem features_are_defaulted_floats
  (float_of_str : string -> option float) (r : Main.hourly_arrays) (i : Z) :
  pollutant_arrays r -> 0 <= i ->
  exists f,
    Main.build_features float_of_str r i = Ok f /\
    Main.NO f = Float64.zero /\
    coerced float_of_str (Main.pm25_vals r) i (Main.PM25 f) /\
    coerced float_of_str (Main.pm10_vals r) i (Main.PM10 f) /\
    coerced float_of_str (Main.no2_vals r) i (Main.NO2 f) /\
    coerced float_of_str (Main.nh3_vals r) i (Main.NH3 f) /\
    coerced float_of_str (Main.co_vals r) i (Main.CO f) /\
    coerced float_of_str (Main.so2_vals r) i (Main.SO2 f) /\
    coerced float_of_str (Main.o3_vals r) i (Main.O3 f) /\
    (finite_reading float_of_str (Main.pm25_vals r) i ->
     finite_reading float_of_str (Main.pm10_vals r) i ->
     finite_reading float_of_str (Main.no2_vals r) i ->
     finite_reading float_of_str (Main.nh3_vals r) i ->
     finite_reading float_of_str (Main.co_vals r) i ->
     finite_reading float_of_str (Main.so2_vals r) i ->
     finite_reading float_of_str (Main.o3_vals r) i ->
     all_finite f = true).
Proof.
  intros Harr Hi.
  pose proof (build_features_lists float_of_str r i Harr Hi) as Hf.
  destruct Harr as (L1 & L2 & L3 & L4 & L5 & L6 & L7).
  exists (features_at float_of_str r i). split; [exact Hf|].
  split; [now apply (build_features_NO float_of_str r i)|].
  destruct (build_features_fields float_of_str r i _ Hf)
    as (F1 & F2 & F3 & F4 & F5 & F6 & F7).
  apply (field_coerced float_of_str _ i _ L1 Hi) in F1.
  apply (field_coerced float_of_str _ i _ L2 Hi) in F2.
  apply (field_coerced float_of_str _ i _ L3 Hi) in F3.
  apply (field_coerced float_of_str _ i _ L7 Hi) in F4.
  apply (field_coerced float_of_str _ i _ L4 Hi) in F5.
  apply (field_coerced float_of_str _ i _ L5 Hi) in F6.
  apply (field_coerced float_of_str _ i _ L6 Hi) in F7.
  repeat (split; [assumption|]).
  intros G1 G2 G3 G4 G5 G6 G7.
  unfold all_finite, Main.feature_row. simpl.
  rewrite (coerced_finite float_of_str _ i _ F1 G1).
  rewrite (coerced_finite float_of_str _ i _ F2 G2).
  rewrite (coerced_finite float_of_str _ i _ F3 G3).
  rewrite (coerced_finite float_of_str _ i _ F4 G4).
  rewrite (coerced_finite float_of_str _ i _ F5 G5).
  rewrite (coerced_finite float_of_str _ i _ F6 G6).
  rewrite (coerced_finite float_of_str _ i _ F7 G7).
  rewrite (build_features_NO float_of_str r i _ Hf). reflexivity.
Qed.

Lemma features_are_defaulted_floats_witness :
  exists f,
    Main.build_features toy_parser flaky_scenario 1 = Ok f /\
    Main.NO f = Float64.zero /\
    Main.PM25 f = Float64.of_Z 20 /\
    Main.PM10 f = Float64.zero.
Proof.
  destruct (features_are_defaulted_floats toy_parser flaky_scenario 1)
    as (f & Hf & Hno & H25 & H10 & _).
  - repeat split.
  - lia.
  - exists f. split; [exact Hf|]. split; [exact Hno|]. split.
    + destruct H25 as [Hc|[[Hn|[e He]] _]]; [|discriminate..].
      simpl in Hc. now injection Hc as <-.
    + destruct H10 as [Hc|[_ ->]]; [discriminate|reflexivity].
Defined.

(** ** Empty timestamps *)

(** C7, at the failing input. When ["time"] is absent (so [timestamps] is
    the empty default) and the seven pollutant arrays are the non-empty
    ones of the scenario, the source index is [min(d, -1) = -1] on every
    day, the guard [-1 < len(vals)] holds, and [vals[-1]] is the last
    sample: the 30-day block ends normally with 30 points, not with the
    empty sequence.  The hourly block does return the empty sequence. *)
Theorem empty_timestamps_give_thirty_points
  (float_of_str : string -> option float) (joblib_load : loader)
  (today : date) (w : world) :
  horizon_representable today ->
  Main.read_hourly aq_without_time = Ok scenario_without_timestamps /\
  Main.build_features float_of_str scenario_without_timestamps (-1)
    = Ok scenario_features_1 /\
  (exists pts w',
     Main.forecast30_try float_of_str joblib_load aq_without_time today w
       = (pts, Ok tt, w') /\
     length pts = 30%nat) /\
  Main.hourly_try float_of_str joblib_load aq_without_time w = ([], Ok tt, w).
Proof.
  intros Hday.
  assert (Main.read_hourly aq_without_time = Ok scenario_without_timestamps) as Hread
    by (vm_compute; reflexivity).
  split; [exact Hread|].
  split; [vm_compute; reflexivity|].
  split.
  - unfold Main.forecast30_try. rewrite Hread.
    destruct (build_forecast_30d_complete float_of_str joblib_load
                scenario_without_timestamps today 0 w) as (w' & Hloop).
    + reflexivity.
    + intros d Hd. replace (Z.min d (0 - 1)) with (-1) by lia.
      eexists. vm_compute. reflexivity.
    + exact Hday.
    + eexists _, w'. split; [exact Hloop|].
      now rewrite length_map, py_range_length.
  - unfold Main.hourly_try. rewrite Hread. reflexivity.
Qed.

Lemma empty_timestamps_give_thirty_points_witness :
  exists pts w',
    Main.forecast30_try toy_parser missing_artifact aq_without_time a_day
      initial_world = (pts, Ok tt, w') /\
    length pts = 30%nat.
Proof.
  destruct (empty_timestamps_give_thirty_points toy_parser missing_artifact
              a_day initial_world) as (_ & _ & Hpts & _).
  - split; vm_compute; discriminate.
  - exact Hpts.
Defined.

(** ** Exceptions inside a forecast block *)

Section BlockFacts.

Variable float_of_str : string -> option float.
Variable joblib_load : loader.

Lemma hourly_loop_complete (r : Main.hourly_arrays) (items : list value)
  (w : world) :
  (forall i, 0 <= i -> exists f, Main.build_features float_of_str r i = Ok f) ->
  exists w',
    for_append (enumerate items) (Main.hourly_hour float_of_str joblib_load r) [] w
      = (map (hourly_point float_of_str r (resolved_model joblib_load w))
           (enumerate items),
         Ok tt, w').
Proof.
  intros Hfeat.
  destruct (for_append_all_ok
              (Main.hourly_hour float_of_str joblib_load r)
              (fun v => resolved_model joblib_load v = resolved_model joblib_load w)
              (hourly_point float_of_str r (resolved_model joblib_load w))
              (enumerate items)) with (acc := @nil Main.HourlyPoint) (w := w)
    as (w' & Hloop & _).
  - intros [i t] v Hin Hv.
    destruct (Hfeat i) as [f Hf]; [now apply enumerate_index_nonneg in Hin|].
    destruct (hourly_hour_ok float_of_str joblib_load r (i, t) v f Hf)
      as (v' & Hstep & Hv').
    exists v'. rewrite Hstep, Hv. split; [reflexivity|congruence].
  - reflexivity.
  - exists w'. exact Hloop.
Qed.



End BlockFacts.


Section BlockExceptions.

Variable float_of_str : string -> option float.
Variable joblib_load : loader.



End BlockExceptions.

Section Handler.

Variable float_of_str : string -> option float.
Variable joblib_load : loader.
Variable fetch_air_quality : float -> float -> result value.
Variable fetch_weather : float -> float -> result value.
Variable today : date.
Variable utcnow_isoformat : string.


End Handler.




(** ** The memoised loader *)

Section Memoisation.

Variable joblib_load : loader.

Lemma loader_load_cached (p : string) (w : world) (m : Model) :
  loader_model_cache w = Some m ->
  ModelLoader.load_model joblib_load p w = (Ok (Some m), w).
Proof.
  intros H. unfold ModelLoader.load_model, bind, ModelLoader.get_cache. simpl.
  rewrite H. reflexivity.
Qed.

(** Once an object is cached, any number of further calls return it and
    leave the state alone. *)
Lemma loader_calls_cached (p : string) (w : world) (m : Model) (n : nat) :
  loader_model_cache w = Some m ->
  call_n (ModelLoader.load_model joblib_load) p n w = (repeat (Ok (Some m)) n, w).
Proof.
  intros H. induction n as [|n IH]; simpl; [reflexivity|].
  rewrite (loader_load_cached p w m H), IH. reflexivity.
Qed.

(** The loader of [model_loader], run on its own cache, does what the
    loader of [main] does on [main]'s. *)
Lemma loader_simulation (p : string) (w : world) :
  ModelLoader.load_model joblib_load p (swap_modules w)
    = (fst (Main.load_model joblib_load p w),
       swap_modules (snd (Main.load_model joblib_load p w))).
Proof.
  unfold ModelLoader.load_model, Main.load_model, bind, try_except_M,
    ModelLoader.get_cache, Main.get_cache, ModelLoader.set_cache, Main.set_cache,
    call_joblib_load, new_DummyModel, print, ret.
  destruct w as [lc mc nid lg dg]. simpl.
  destruct mc as [m|]; [reflexivity|].
  destruct (joblib_load p) as [[f|]|e]; reflexivity.
Qed.

Lemma calls_simulation (p : string) (n : nat) (w : world) :
  call_n (ModelLoader.load_model joblib_load) p n (swap_modules w)
    = (fst (call_n (Main.load_model joblib_load) p n w),
       swap_modules (snd (call_n (Main.load_model joblib_load) p n w))).
Proof.
  revert w. induction n as [|n IH]; intros w; simpl; [reflexivity|].
  rewrite loader_simulation.
  destruct (Main.load_model joblib_load p w) as [r w1]. simpl.
  rewrite IH.
  destruct (call_n (Main.load_model joblib_load) p n w1) as [rs w2].
  reflexivity.
Qed.

End Memoisation.

(** C9 as stated fails when the file unpickles to [None]: the cache
    cannot tell "nothing loaded yet" from "loaded [None]", so two calls in
    a fresh process make two calls to [joblib.load], return [None] both
    times and leave nothing cached. *)
Lemma none_artifact_is_read_again :
  fst (call_n (ModelLoader.load_model none_artifact) default_model_path 2
         initial_world) = [Ok None; Ok None] /\
  load_log (snd (call_n (ModelLoader.load_model none_artifact)
                   default_model_path 2 initial_world))
    = [default_model_path; default_model_path] /\
  loader_model_cache (snd (call_n (ModelLoader.load_model none_artifact)
                             default_model_path 2 initial_world)) = None.
Proof. repeat split. Qed.

(** C9, amended. Provided what is unpickled, when the load succeeds, is an object
    (not [None]): the first call of [load_model] returns a model [m]; a
    second call, with any path, returns the identical [m] and changes
    nothing in the process, and so does every later call; at most one
    call to [joblib.load] is added to the log.  When the load fails, [m]
    is a fresh [DummyModel], it is the cached object, and the fallback
    warning is printed once, by the call that resolved it. *)
Theorem load_model_is_memoised
  (joblib_load : loader) (p1 p2 : string) (w : world) :
  (loader_model_cache w = None -> joblib_load p1 <> Ok None) ->
  exists m w1,
    ModelLoader.load_model joblib_load p1 w = (Ok (Some m), w1) /\
    ModelLoader.load_model joblib_load p2 w1 = (Ok (Some m), w1) /\
    (forall n, call_n (ModelLoader.load_model joblib_load) p2 n w1
               = (repeat (Ok (Some m)) n, w1)) /\
    loader_model_cache w1 = Some m /\
    (exists calls, load_log w1 = load_log w ++ calls /\ (length calls <= 1)%nat) /\
    (loader_model_cache w = None -> forall e, joblib_load p1 = Raise e ->
       m = DummyModel (next_id w) /\
       model_predict m = DummyModel_predict /\
       load_log w1 = load_log w ++ [p1] /\
       diagnostics w1 = diagnostics w ++ [WarnDummyModel p1 e]) /\
    (loader_model_cache w = None -> forall f, joblib_load p1 = Ok (Some f) ->
       model_predict m = f /\ diagnostics w1 = diagnostics w).
Proof.
  intros Hobj.
  assert (forall m w1,
            ModelLoader.load_model joblib_load p1 w = (Ok (Some m), w1) ->
            loader_model_cache w1 = Some m ->
            ModelLoader.load_model joblib_load p2 w1 = (Ok (Some m), w1) /\
            (forall n, call_n (ModelLoader.load_model joblib_load) p2 n w1
                       = (repeat (Ok (Some m)) n, w1)) /\
            loader_model_cache w1 = Some m) as Hagain.
  { intros m w1 _ Hc. split; [now apply loader_load_cached|].
    split; [intros n; now apply loader_calls_cached|exact Hc]. }
  destruct (loader_model_cache w) as [m|] eqn:Hc.
  - exists m, w.
    pose proof (loader_load_cached joblib_load p1 w m Hc) as H1.
    split; [exact H1|].
    destruct (Hagain m w H1 Hc) as (H2 & H3 & H4).
    split; [exact H2|]. split; [exact H3|]. split; [exact H4|].
    split; [exists []; split; [now rewrite app_nil_r|simpl; lia]|].
    split; discriminate.
  - specialize (Hobj eq_refl).
    destruct (joblib_load p1) as [[f|]|e] eqn:Hl; [| congruence |].
    + assert (ModelLoader.load_model joblib_load p1 w =
                (Ok (Some {| model_id := next_id w; model_predict := f |}),
                 with_loader_cache (Some {| model_id := next_id w; model_predict := f |})
                   (with_fresh_id (with_load_logged p1 w)))) as H1.
      { unfold ModelLoader.load_model, bind, try_except_M, ModelLoader.get_cache,
          call_joblib_load, ModelLoader.set_cache. simpl. rewrite Hc, Hl. reflexivity. }
      eexists _, _. split; [exact H1|].
      destruct (Hagain _ _ H1 eq_refl) as (H2 & H3 & H4).
      split; [exact H2|]. split; [exact H3|]. split; [exact H4|].
      split; [exists [p1]; split; [reflexivity|simpl; lia]|].
      split; [discriminate|].
      intros _ f' [= <-]. split; reflexivity.
    + assert (ModelLoader.load_model joblib_load p1 w =
                (Ok (Some (DummyModel (next_id w))),
                 snd (print (WarnDummyModel p1 e)
                        (with_loader_cache (Some (DummyModel (next_id w)))
                           (with_fresh_id (with_load_logged p1 w)))))) as H1.
      { unfold ModelLoader.load_model, bind, try_except_M, ModelLoader.get_cache,
          call_joblib_load, ModelLoader.set_cache, new_DummyModel, print.
        simpl. rewrite Hc, Hl. reflexivity. }
      eexists _, _. split; [exact H1|].
      destruct (Hagain _ _ H1 eq_refl) as (H2 & H3 & H4).
      split; [exact H2|]. split; [exact H3|]. split; [exact H4|].
      split; [exists [p1]; split; [reflexivity|simpl; lia]|].
      split; [|discriminate].
      intros _ e' [= <-]. repeat split.
Qed.

Lemma load_model_is_memoised_witness :
  exists w1,
    ModelLoader.load_model missing_artifact default_model_path initial_world
      = (Ok (Some (DummyModel 0)), w1) /\
    ModelLoader.load_model missing_artifact default_model_path w1
      = (Ok (Some (DummyModel 0)), w1) /\
    load_log w1 = [default_model_path] /\
    diagnostics w1
      = [WarnDummyModel default_model_path (OtherError "FileNotFoundError")].
Proof.
  destruct (load_model_is_memoised missing_artifact default_model_path
              default_model_path initial_world)
    as (m & w1 & H1 & H2 & _ & _ & _ & Hfail & _).
  - intros _. discriminate.
  - destruct (Hfail eq_refl (OtherError "FileNotFoundError") eq_refl)
      as (-> & _ & Hlog & Hdiag).
    exists w1. split; [exact H1|]. split; [exact H2|].
    split; [exact Hlog|exact Hdiag].
Defined.

Lemma DummyModel_predict_eight (a0 a1 a2 a3 a4 a5 a6 a7 : float) :
  DummyModel_predict [[a0; a1; a2; a3; a4; a5; a6; a7]]
    = Ok [Float64.add
            (Float64.mul
               (Float64.add Float64.zero
                  (Float64.add
                     (Float64.add (Float64.add a0 a1) (Float64.add a2 a3))
                     (Float64.add (Float64.add a4 a5) (Float64.add a6 a7))))
               (Float64.dec 1 1))
            (Float64.of_Z 50)].
Proof. reflexivity. Qed.

(** C10. The [load_model] of [main.py] and the one of [model_loader.py]
    are the same function up to the module whose [_model_cache] they use:
    from corresponding states and for the same path and the same outcome
    of [joblib.load], they return the same object and reach corresponding
    states, for one call and for any sequence of calls.  On an empty
    cache both return the loaded artifact when the load succeeds and,
    when it fails, the same fallback model, whose [predict] maps a vector
    of eight features to [sum * 0.1 + 50], the sum being taken as NumPy
    takes it: [((a0 + a1) + (a2 + a3)) + ((a4 + a5) + (a6 + a7))] added
    to [0.0]. *)
Theorem main_load_model_matches_model_loader
  (joblib_load : loader) (p : string) (w : world) :
  ModelLoader.load_model joblib_load p (swap_modules w)
    = (fst (Main.load_model joblib_load p w),
       swap_modules (snd (Main.load_model joblib_load p w))) /\
  (forall n,
     fst (call_n (ModelLoader.load_model joblib_load) p n (swap_modules w))
       = fst (call_n (Main.load_model joblib_load) p n w) /\
     snd (call_n (ModelLoader.load_model joblib_load) p n (swap_modules w))
       = swap_modules (snd (call_n (Main.load_model joblib_load) p n w))) /\
  (main_model_cache w = None ->
     (forall f, joblib_load p = Ok (Some f) ->
        exists m,
          fst (Main.load_model joblib_load p w) = Ok (Some m) /\
          fst (ModelLoader.load_model joblib_load p (swap_modules w))
            = Ok (Some m) /\
          model_predict m = f) /\
     (forall e, joblib_load p = Raise e ->
        exists m,
          fst (Main.load_model joblib_load p w) = Ok (Some m) /\
          fst (ModelLoader.load_model joblib_load p (swap_modules w))
            = Ok (Some m) /\
          forall a0 a1 a2 a3 a4 a5 a6 a7 : float,
            model_predict m [[a0; a1; a2; a3; a4; a5; a6; a7]]
              = Ok [Float64.add
                      (Float64.mul
                         (Float64.add Float64.zero
                            (Float64.add
                               (Float64.add (Float64.add a0 a1)
                                  (Float64.add a2 a3))
                               (Float64.add (Float64.add a4 a5)
                                  (Float64.add a6 a7))))
                         (Float64.dec 1 1))
                      (Float64.of_Z 50)])).
Proof.
  split; [apply loader_simulation|].
  split; [intros n; rewrite calls_simulation; split; reflexivity|].
  intros Hc. split.
  - intros f Hl. rewrite loader_simulation.
    rewrite (main_load_object joblib_load p w f Hc Hl).
    eexists. repeat split.
  - intros e Hl. rewrite loader_simulation.
    rewrite (main_load_failure joblib_load p w e Hc Hl).
    eexists. split; [reflexivity|]. split; [reflexivity|].
    intros a0 a1 a2 a3 a4 a5 a6 a7. apply DummyModel_predict_eight.
Qed.

Lemma main_load_model_matches_model_loader_witness :
  exists m,
    fst (Main.load_model missing_artifact default_model_path initial_world)
      = Ok (Some m) /\
    fst (ModelLoader.load_model missing_artifact default_model_path
           (swap_modules initial_world)) = Ok (Some m) /\
    model_predict m [Main.feature_row scenario_features_0]
      = Ok [Float64.dec 6466 2].
Proof.
  destruct (main_load_model_matches_model_loader missing_artifact
              default_model_path initial_world) as (_ & _ & Hempty).
  destruct (Hempty eq_refl) as [_ Hfail].
  destruct (Hfail (OtherError "FileNotFoundError") eq_refl)
    as (m & Hmain & Hloader & Hpredict).
  exists m. split; [exact Hmain|]. split; [exact Hloader|].
  unfold Main.feature_row, scenario_features_0.
  cbn [Main.PM25 Main.PM10 Main.NO2 Main.NO Main.NH3 Main.CO Main.SO2 Main.O3].
  rewrite Hpredict. vm_compute. reflexivity.
Defined.

(** * Further properties of the handler *)

(** ** The state only moves forward *)

Lemma evolves_refl (w : world) : evolves w w.
Proof.
  unfold evolves. split; [reflexivity|].
  split; [exists []; now rewrite app_nil_r|].
  split; [exists []; now rewrite app_nil_r|].
  split; [lia|]. intros m Hm. auto.
Qed.

Lemma evolves_trans (w1 w2 w3 : world) :
  evolves w1 w2 -> evolves w2 w3 -> evolves w1 w3.
Proof.
  intros (Hl & [c Hc] & [d Hd] & Hn & Hm) (Hl' & [c' Hc'] & [d' Hd'] & Hn' & Hm').
  unfold evolves. split; [congruence|].
  split; [exists (c ++ c'); rewrite Hc', Hc; now rewrite app_assoc|].
  split; [exists (d ++ d'); rewrite Hd', Hd; now rewrite app_assoc|].
  split; [lia|].
  intros m H1. destruct (Hm m H1) as (H2 & Hlog & Hid).
  destruct (Hm' m H2) as (H3 & Hlog' & Hid').
  split; [exact H3|]. split; congruence.
Qed.

Lemma evolving_ret {A} (a : A) : evolving (ret a).
Proof. intros w. apply evolves_refl. Qed.

Lemma evolving_lift {A} (r : result A) : evolving (lift r).
Proof. intros w. apply evolves_refl. Qed.

Lemma evolving_bind {A B} (m : M A) (k : A -> M B) :
  evolving m -> (forall a, evolving (k a)) -> evolving (bind m k).
Proof.
  intros Hm Hk w. unfold bind. specialize (Hm w).
  destruct (m w) as [[a|e] w1]; simpl in *; [|exact Hm].
  eapply evolves_trans; [exact Hm|apply Hk].
Qed.

Lemma evolving_try_except {A} (body : M A) (handler : exn -> M A) :
  evolving body -> (forall e, evolving (handler e)) ->
  evolving (try_except_M body handler).
Proof.
  intros Hb Hh w. unfold try_except_M. specialize (Hb w).
  destruct (body w) as [[a|e] w1]; simpl in *; [exact Hb|].
  eapply evolves_trans; [exact Hb|apply Hh].
Qed.

Lemma evolving_print (d : diagnostic) : evolving (print d).
Proof.
  intros w. unfold print, evolves. simpl.
  split; [reflexivity|].
  split; [exists []; now rewrite app_nil_r|].
  split; [now exists [d]|].
  split; [lia|]. auto.
Qed.

Lemma evolving_for_append {A B} (body : A -> M B) (items : list A) :
  (forall x, evolving (body x)) ->
  forall acc w, evolves w (snd (for_append items body acc w)).
Proof.
  intros Hbody. induction items as [|x rest IH]; intros acc w; simpl.
  - apply evolves_refl.
  - pose proof (Hbody x w) as Hx.
    destruct (body x w) as [[b|e] w1]; simpl in *; [|exact Hx].
    eapply evolves_trans; [exact Hx|apply IH].
Qed.

Section StateFacts.

Variable float_of_str : string -> option float.
Variable joblib_load : loader.

Lemma evolving_load_model (p : string) : evolving (Main.load_model joblib_load p).
Proof.
  intros w.
  destruct (main_model_cache w) as [m|] eqn:Hc.
  - rewrite (main_load_cached joblib_load p w m Hc). apply evolves_refl.
  - assert (forall m : Model, main_model_cache w = Some m -> False) as Hno
      by (intros m Hm; congruence).
    destruct (joblib_load p) as [[f|]|e] eqn:Hl.
    + rewrite (main_load_object joblib_load p w f Hc Hl). unfold evolves. simpl.
      split; [reflexivity|]. split; [now exists [p]|].
      split; [exists []; now rewrite app_nil_r|]. split; [lia|].
      intros m Hm. destruct (Hno m Hm).
    + rewrite (main_load_none joblib_load p w Hc Hl). unfold evolves. simpl.
      split; [reflexivity|]. split; [now exists [p]|].
      split; [exists []; now rewrite app_nil_r|]. split; [lia|].
      intros m Hm. destruct (Hno m Hm).
    + rewrite (main_load_failure joblib_load p w e Hc Hl). unfold evolves. simpl.
      split; [reflexivity|]. split; [now exists [p]|].
      split; [now exists [WarnDummyModel p e]|]. split; [lia|].
      intros m Hm. destruct (Hno m Hm).
Qed.

(** A call that returned a model has cached that very model. *)
Lemma load_model_returns_cached (p : string) (w w' : world) (m : Model) :
  Main.load_model joblib_load p w = (Ok (Some m), w') ->
  main_model_cache w' = Some m.
Proof.
  destruct (main_model_cache w) as [m0|] eqn:Hc.
  - rewrite (main_load_cached joblib_load p w m0 Hc). now intros [= <- <-].
  - destruct (joblib_load p) as [[f|]|e] eqn:Hl.
    + rewrite (main_load_object joblib_load p w f Hc Hl). now intros [= <- <-].
    + rewrite (main_load_none joblib_load p w Hc Hl). discriminate.
    + rewrite (main_load_failure joblib_load p w e Hc Hl). now intros [= <- <-].
Qed.

Lemma evolving_predict_3h (features : Main.AQIFeatures) :
  evolving (Main.predict_3h joblib_load features).
Proof.
  unfold Main.predict_3h. apply evolving_bind.
  - apply evolving_load_model.
  - intros m. apply evolving_lift.
Qed.

Lemma evolving_predict_or_50 (features : Main.AQIFeatures) :
  evolving (Main.predict_or_50 joblib_load features).
Proof.
  unfold Main.predict_or_50. apply evolving_try_except.
  - apply evolving_predict_3h.
  - intros e. apply evolving_ret.
Qed.

Lemma evolving_forecast30_day (r : Main.hourly_arrays) (today : date) (d : Z) :
  evolving (Main.forecast30_day float_of_str joblib_load r today d).
Proof.
  unfold Main.forecast30_day.
  apply evolving_bind; [apply evolving_lift|intros n].
  apply evolving_bind; [apply evolving_lift|intros f].
  apply evolving_bind; [apply evolving_predict_or_50|intros v].
  apply evolving_bind; [apply evolving_lift|intros day].
  apply evolving_ret.
Qed.

Lemma evolving_hourly_hour (r : Main.hourly_arrays) (item : Z * value) :
  evolving (Main.hourly_hour float_of_str joblib_load r item).
Proof.
  unfold Main.hourly_hour. destruct item as [i ts].
  apply evolving_bind; [apply evolving_lift|intros f].
  apply evolving_bind; [apply evolving_predict_or_50|intros v].
  apply evolving_ret.
Qed.

Lemma forecast30_section_evolves (aq : value) (today : date) (w : world) :
  evolves w (snd (Main.forecast30_section float_of_str joblib_load aq today w)).
Proof.
  unfold Main.forecast30_section, Main.forecast30_try, Main.build_forecast_30d.
  destruct (Main.read_hourly aq) as [r|e]; [|apply evolving_print].
  pose proof (evolving_for_append
                (Main.forecast30_day float_of_str joblib_load r today)
                (py_range 30)
                (evolving_forecast30_day r today) [] w) as H.
  destruct (for_append (py_range 30) _ [] w) as [[pts [u|e]] w1];
    cbn [snd] in *; [exact H|].
  eapply evolves_trans; [exact H|apply evolving_print].
Qed.

Lemma hourly_section_evolves (aq : value) (w : world) :
  evolves w (snd (Main.hourly_section float_of_str joblib_load aq w)).
Proof.
  unfold Main.hourly_section, Main.hourly_try, Main.build_hourly_today.
  destruct (Main.read_hourly aq) as [r|e]; [|apply evolving_print].
  destruct (py_slice_items (Main.timestamps r) 24) as [items|e];
    [|apply evolving_print].
  pose proof (evolving_for_append
                (Main.hourly_hour float_of_str joblib_load r)
                (enumerate items)
                (evolving_hourly_hour r) [] w) as H.
  destruct (for_append (enumerate items) _ [] w) as [[pts [u|e]] w1];
    cbn [snd] in *; [exact H|].
  eapply evolves_trans; [exact H|apply evolving_print].
Qed.

Variable fetch_air_quality : float -> float -> result value.
Variable fetch_weather : float -> float -> result value.
Variable today : date.
Variable utcnow_isoformat : string.

Lemma evolving_live_prelude (lat lon : float) :
  evolving (Main.live_prelude float_of_str joblib_load fetch_air_quality
              fetch_weather lat lon).
Proof.
  unfold Main.live_prelude.
  apply evolving_bind; [apply evolving_lift|intros aq].
  apply evolving_bind; [apply evolving_lift|intros wx].
  apply evolving_bind; [apply evolving_lift|intros comps].
  apply evolving_bind; [apply evolving_lift|intros wth].
  apply evolving_bind; [apply evolving_predict_3h|intros aqi3].
  apply evolving_ret.
Qed.

Lemma live_evolves (lat lon : float) (city : option string) (w : world) :
  evolves w (snd (Main.live float_of_str joblib_load fetch_air_quality
                    fetch_weather today utcnow_isoformat lat lon city w)).
Proof.
  unfold Main.live, Main.live_body, bind.
  pose proof (evolving_live_prelude lat lon w) as Hpre.
  destruct (Main.live_prelude _ _ _ _ lat lon w) as [[[[[aq wth] comps] aqi3]|e] w1];
    cbn [snd] in *.
  - pose proof (forecast30_section_evolves aq today w1) as H30.
    destruct (Main.forecast30_section float_of_str joblib_load aq today w1)
      as [forecast30 w2]. cbn [snd] in H30.
    pose proof (hourly_section_evolves aq w2) as Hh.
    destruct (Main.hourly_section float_of_str joblib_load aq w2) as [hourly w3].
    cbn [snd] in *.
    eapply evolves_trans; [exact Hpre|]. eapply evolves_trans; eassumption.
  - eapply evolves_trans; [exact Hpre|apply evolving_print].
Qed.

End StateFacts.

(** ** The upstream document *)

Section DocumentFacts.

Variable float_of_str : string -> option float.

Lemma first_reading_dict (d h : gmap string value) (key : string) :
  d !! "hourly" = Some (VDict h) ->
  Main.first_reading (VDict d) key
    = match h !! key with
      | Some v => py_getitem v 0
      | None => Raise KeyError
      end.
Proof.
  intros Hd. unfold Main.first_reading, py_getitem_str, result_bind.
  rewrite Hd. destruct (h !! key); reflexivity.
Qed.

(** Reading the first element of a series succeeds only on a dict whose
    ["hourly"] entry is a dict holding the key. *)
Lemma first_reading_inv (aq : value) (key : string) (x : value) :
  Main.first_reading aq key = Ok x ->
  exists d h v,
    aq = VDict d /\ d !! "hourly" = Some (VDict h) /\
    h !! key = Some v /\ py_getitem v 0 = Ok x.
Proof.
  unfold Main.first_reading, py_getitem_str, result_bind.
  destruct aq as [| | | | | |d]; try discriminate.
  destruct (d !! "hourly") as [hours|] eqn:Hd; [|discriminate].
  destruct hours as [| | | | | |h]; try discriminate.
  destruct (h !! key) as [v|] eqn:Hk; [|discriminate].
  intros Hx. exists d, h, v. auto.
Qed.

Lemma read_hourly_dict (d h : gmap string value) :
  d !! "hourly" = Some (VDict h) ->
  Main.read_hourly (VDict d) = Ok (arrays_of h).
Proof.
  intros Hd. unfold Main.read_hourly, arrays_of, py_get, result_bind.
  rewrite Hd.
  destruct (h !! "time"), (h !! "pm2_5"), (h !! "pm10"),
    (h !! "nitrogen_dioxide"), (h !! "carbon_monoxide"),
    (h !! "sulphur_dioxide"), (h !! "ozone"), (h !! "ammonia"); reflexivity.
Qed.

(** A series whose element 0 can be read is guarded the same way at
    index 0, and can also be read at index -1. *)
Lemma getitem0_item (v x : value) :
  py_getitem v 0 = Ok x -> Main.item_or_None v 0 = Ok x.
Proof.
  unfold Main.item_or_None.
  destruct v as [| | | |s|l|d]; try discriminate.
  - destruct s; [discriminate|]. intros H. exact H.
  - destruct l; [discriminate|]. intros H. exact H.
Qed.

Lemma getitem0_last (v x : value) :
  py_getitem v 0 = Ok x -> indexable v (-1).
Proof.
  unfold indexable, Main.item_or_None.
  destruct v as [| | | |s|l|d]; try discriminate.
  - destruct s as [|a s]; [discriminate|]. intros _.
    cbn [py_len result_bind].
    replace (-1 <? Z.of_nat (String.length (String a s))) with true
      by (symmetry; apply Z.ltb_lt; lia).
    unfold py_getitem, seq_index.
    replace ((0 <=? -1) && (-1 <? Z.of_nat (String.length (String a s))))
      with false by reflexivity.
    replace ((- Z.of_nat (String.length (String a s)) <=? -1) && (-1 <? 0))
      with true
      by (symmetry; apply andb_true_iff; split;
          [apply Z.leb_le; simpl String.length; lia|reflexivity]).
    destruct (string_get_lt (String a s)
                (Z.to_nat (Z.of_nat (String.length (String a s)) + -1)))
      as [c Hc]; [simpl String.length; lia|].
    rewrite Hc. eauto.
  - destruct l as [|a l]; [discriminate|]. intros _.
    cbn [py_len result_bind].
    replace (-1 <? Z.of_nat (length (a :: l))) with true
      by (symmetry; apply Z.ltb_lt; lia).
    unfold py_getitem, seq_index.
    replace ((0 <=? -1) && (-1 <? Z.of_nat (length (a :: l))))
      with false by reflexivity.
    replace ((- Z.of_nat (length (a :: l)) <=? -1) && (-1 <? 0))
      with true
      by (symmetry; apply andb_true_iff; split;
          [apply Z.leb_le; simpl length; lia|reflexivity]).
    destruct (lookup_lt_is_Some_2 (a :: l)
                (Z.to_nat (Z.of_nat (length (a :: l)) + -1)))
      as [y Hy]; [simpl length; lia|].
    rewrite Hy. eauto.
Qed.

Lemma default_lookup (h : gmap string value) (key : string) (v : value) :
  h !! key = Some v -> default (VList []) (h !! key) = v.
Proof. intros ->. reflexivity. Qed.

End DocumentFacts.

Section CurrentFeatures.

Variable float_of_str : string -> option float.

Lemma current_features_inv (aq : value) (comps : Main.AQIFeatures) :
  Main.current_features float_of_str aq = Ok comps ->
  exists d h,
    aq = VDict d /\ d !! "hourly" = Some (VDict h) /\
    Main.NO comps = Float64.zero /\
    first_reading_of float_of_str h "pm2_5" (Main.PM25 comps) /\
    first_reading_of float_of_str h "pm10" (Main.PM10 comps) /\
    first_reading_of float_of_str h "nitrogen_dioxide" (Main.NO2 comps) /\
    first_reading_of float_of_str h "ammonia" (Main.NH3 comps) /\
    first_reading_of float_of_str h "carbon_monoxide" (Main.CO comps) /\
    first_reading_of float_of_str h "sulphur_dioxide" (Main.SO2 comps) /\
    first_reading_of float_of_str h "ozone" (Main.O3 comps).
Proof.
  intros H. unfold Main.current_features in H.
  destruct (Main.first_reading aq "pm2_5") as [x25|] eqn:E1; [|discriminate].
  destruct (first_reading_inv aq "pm2_5" x25 E1) as (d & h & v & -> & Hd & _ & _).
  rewrite (first_reading_dict d h _ Hd) in E1.
  rewrite !(first_reading_dict d h _ Hd) in H.
  cbn [result_bind] in H.
  unfold first_reading_of.
  destruct (h !! "pm2_5") as [v1|] eqn:K1; [|discriminate].
  destruct (Main._safe_num float_of_str x25 Float64.zero) as [f1|] eqn:S1;
    [|discriminate]. cbn [result_bind] in H.
  destruct (h !! "pm10") as [v2|] eqn:K2; [|discriminate].
  destruct (py_getitem v2 0) as [x2|] eqn:E2; [|discriminate]. cbn [result_bind] in H.
  destruct (Main._safe_num float_of_str x2 Float64.zero) as [f2|] eqn:S2;
    [|discriminate]. cbn [result_bind] in H.
  destruct (h !! "nitrogen_dioxide") as [v3|] eqn:K3; [|discriminate].
  destruct (py_getitem v3 0) as [x3|] eqn:E3; [|discriminate]. cbn [result_bind] in H.
  destruct (Main._safe_num float_of_str x3 Float64.zero) as [f3|] eqn:S3;
    [|discriminate]. cbn [result_bind] in H.
  destruct (h !! "ammonia") as [v4|] eqn:K4; [|discriminate].
  destruct (py_getitem v4 0) as [x4|] eqn:E4; [|discriminate]. cbn [result_bind] in H.
  destruct (Main._safe_num float_of_str x4 Float64.zero) as [f4|] eqn:S4;
    [|discriminate]. cbn [result_bind] in H.
  destruct (h !! "carbon_monoxide") as [v5|] eqn:K5; [|discriminate].
  destruct (py_getitem v5 0) as [x5|] eqn:E5; [|discriminate]. cbn [result_bind] in H.
  destruct (Main._safe_num float_of_str x5 Float64.zero) as [f5|] eqn:S5;
    [|discriminate]. cbn [result_bind] in H.
  destruct (h !! "sulphur_dioxide") as [v6|] eqn:K6; [|discriminate].
  destruct (py_getitem v6 0) as [x6|] eqn:E6; [|discriminate]. cbn [result_bind] in H.
  destruct (Main._safe_num float_of_str x6 Float64.zero) as [f6|] eqn:S6;
    [|discriminate]. cbn [result_bind] in H.
  destruct (h !! "ozone") as [v7|] eqn:K7; [|discriminate].
  destruct (py_getitem v7 0) as [x7|] eqn:E7; [|discriminate]. cbn [result_bind] in H.
  destruct (Main._safe_num float_of_str x7 Float64.zero) as [f7|] eqn:S7;
    [|discriminate]. cbn [result_bind] in H.
  injection H as <-. cbn.
  exists d, h. split; [reflexivity|]. split; [exact Hd|]. split; [reflexivity|].
  repeat split; eauto 8.
Qed.

Lemma current_features_intro (d h : gmap string value) (comps : Main.AQIFeatures) :
  d !! "hourly" = Some (VDict h) ->
  Main.NO comps = Float64.zero ->
  first_reading_of float_of_str h "pm2_5" (Main.PM25 comps) ->
  first_reading_of float_of_str h "pm10" (Main.PM10 comps) ->
  first_reading_of float_of_str h "nitrogen_dioxide" (Main.NO2 comps) ->
  first_reading_of float_of_str h "ammonia" (Main.NH3 comps) ->
  first_reading_of float_of_str h "carbon_monoxide" (Main.CO comps) ->
  first_reading_of float_of_str h "sulphur_dioxide" (Main.SO2 comps) ->
  first_reading_of float_of_str h "ozone" (Main.O3 comps) ->
  Main.current_features float_of_str (VDict d) = Ok comps.
Proof.
  intros Hd Hno (v1 & x1 & K1 & G1 & S1) (v2 & x2 & K2 & G2 & S2)
    (v3 & x3 & K3 & G3 & S3) (v4 & x4 & K4 & G4 & S4) (v5 & x5 & K5 & G5 & S5)
    (v6 & x6 & K6 & G6 & S6) (v7 & x7 & K7 & G7 & S7).
  unfold Main.current_features.
  rewrite !(first_reading_dict d h _ Hd).
  rewrite K1, K2, K3, K4, K5, K6, K7, G1, G2, G3, G4, G5, G6, G7.
  cbn [result_bind].
  rewrite S1. cbn [result_bind]. rewrite S2. cbn [result_bind].
  rewrite S3. cbn [result_bind]. rewrite S4. cbn [result_bind].
  rewrite S5. cbn [result_bind]. rewrite S6. cbn [result_bind].
  rewrite S7. cbn [result_bind].
  destruct comps. cbn in Hno. subst. reflexivity.
Qed.

(** What the first step of the handler accepted, the forecast blocks can
    read: the same ["hourly"] arrays give the same vector at index 0, and
    a vector at every index from -1 upwards. *)
Lemma current_features_build (aq : value) (comps : Main.AQIFeatures) :
  Main.current_features float_of_str aq = Ok comps ->
  exists d h,
    aq = VDict d /\ d !! "hourly" = Some (VDict h) /\
    Main.read_hourly aq = Ok (arrays_of h) /\
    Main.build_features float_of_str (arrays_of h) 0 = Ok comps /\
    (forall i, -1 <= i ->
       exists f, Main.build_features float_of_str (arrays_of h) i = Ok f).
Proof.
  intros H.
  destruct (current_features_inv aq comps H)
    as (d & h & -> & Hd & Hno & (v1 & x1 & K1 & G1 & S1) & (v2 & x2 & K2 & G2 & S2)
        & (v3 & x3 & K3 & G3 & S3) & (v4 & x4 & K4 & G4 & S4)
        & (v5 & x5 & K5 & G5 & S5) & (v6 & x6 & K6 & G6 & S6)
        & (v7 & x7 & K7 & G7 & S7)).
  exists d, h. split; [reflexivity|]. split; [exact Hd|].
  split; [now apply read_hourly_dict|].
  split.
  - unfold Main.build_features, arrays_of.
    cbn [Main.pm25_vals Main.pm10_vals Main.no2_vals Main.co_vals
         Main.so2_vals Main.o3_vals Main.nh3_vals].
    rewrite (default_lookup h _ _ K1), (default_lookup h _ _ K2),
      (default_lookup h _ _ K3), (default_lookup h _ _ K4),
      (default_lookup h _ _ K5), (default_lookup h _ _ K6),
      (default_lookup h _ _ K7).
    rewrite (getitem0_item _ _ G1), (getitem0_item _ _ G2), (getitem0_item _ _ G3),
      (getitem0_item _ _ G4), (getitem0_item _ _ G5), (getitem0_item _ _ G6),
      (getitem0_item _ _ G7).
    cbn [result_bind].
    rewrite S1. cbn [result_bind]. rewrite S2. cbn [result_bind].
    rewrite S3. cbn [result_bind]. rewrite S4. cbn [result_bind].
    rewrite S5. cbn [result_bind]. rewrite S6. cbn [result_bind].
    rewrite S7. cbn [result_bind].
    destruct comps. cbn in Hno. subst. reflexivity.
  - intros i Hi. apply build_features_ok_iff.
    unfold arrays_of.
    cbn [Main.pm25_vals Main.pm10_vals Main.no2_vals Main.co_vals
         Main.so2_vals Main.o3_vals Main.nh3_vals].
    rewrite (default_lookup h _ _ K1), (default_lookup h _ _ K2),
      (default_lookup h _ _ K3), (default_lookup h _ _ K4),
      (default_lookup h _ _ K5), (default_lookup h _ _ K6),
      (default_lookup h _ _ K7).
    assert (forall v x, py_getitem v 0 = Ok x -> indexable v i) as Hidx.
    { intros v x G. destruct (Z.eq_dec i (-1)) as [->|Hne].
      - now apply (getitem0_last v x).
      - apply indexable_mono; [|lia]. exists x. now apply getitem0_item. }
    repeat split; eapply Hidx; eassumption.
Qed.

End CurrentFeatures.

(** ** The handler, step by step *)

Section HandlerFacts.

Variable float_of_str : string -> option float.
Variable joblib_load : loader.

Lemma resolved_cached (w : world) (m : Model) :
  main_model_cache w = Some m -> resolved_model joblib_load w = Some m.
Proof.
  intros H. unfold resolved_model.
  now rewrite (main_load_cached joblib_load default_model_path w m H).
Qed.

(** A prediction that succeeded was made by a model that is now cached. *)
Lemma predict_3h_success (features : Main.AQIFeatures) (w w1 : world) (v : float) :
  Main.predict_3h joblib_load features w = (Ok v, w1) ->
  exists m,
    main_model_cache w1 = Some m /\
    Main.call_predict (Some m) [Main.feature_row features] = Ok v.
Proof.
  unfold Main.predict_3h, bind, lift.
  destruct (Main.load_model joblib_load default_model_path w) as [[mo|e] w'] eqn:El;
    [|discriminate].
  destruct mo as [m|]; [|discriminate].
  intros [= Hv <-]. exists m. split; [|exact Hv].
  now apply (load_model_returns_cached joblib_load default_model_path w w').
Qed.

Lemma forecast30_section_sized (aq : value) (r : Main.hourly_arrays)
  (today : date) (n : Z) (w : world) :
  horizon_representable today ->
  Main.read_hourly aq = Ok r ->
  py_len (Main.timestamps r) = Ok n ->
  (forall i, -1 <= i -> exists f, Main.build_features float_of_str r i = Ok f) ->
  fst (Main.forecast30_section float_of_str joblib_load aq today w)
    = map (forecast_point float_of_str r n today (resolved_model joblib_load w))
        (py_range 30).
Proof.
  intros Hday Hr Hn Hfeat.
  unfold Main.forecast30_section, Main.forecast30_try. rewrite Hr.
  destruct (build_forecast_30d_complete float_of_str joblib_load r today n w Hn)
    as (w' & Hloop); [|exact Hday|now rewrite Hloop].
  intros d Hd. apply Hfeat. pose proof (py_len_nonneg _ _ Hn). lia.
Qed.

Lemma forecast30_section_unsized (aq : value) (r : Main.hourly_arrays)
  (today : date) (e : exn) (w : world) :
  Main.read_hourly aq = Ok r ->
  py_len (Main.timestamps r) = Raise e ->
  fst (Main.forecast30_section float_of_str joblib_load aq today w) = [].
Proof.
  intros Hr Hn.
  unfold Main.forecast30_section, Main.forecast30_try, Main.build_forecast_30d.
  rewrite Hr.
  change (py_range 30) with (0 :: map Z.of_nat (seq 1 29)).
  rewrite (for_append_first_raises _ 0 _ [] w w e); [reflexivity|].
  unfold Main.forecast30_day, bind, lift. now rewrite Hn.
Qed.

Lemma hourly_section_items (aq : value) (r : Main.hourly_arrays)
  (items : list value) (w : world) :
  Main.read_hourly aq = Ok r ->
  py_slice_items (Main.timestamps r) 24 = Ok items ->
  (forall i, 0 <= i -> exists f, Main.build_features float_of_str r i = Ok f) ->
  fst (Main.hourly_section float_of_str joblib_load aq w)
    = map (hourly_point float_of_str r (resolved_model joblib_load w))
        (enumerate items).
Proof.
  intros Hr Hs Hfeat.
  unfold Main.hourly_section, Main.hourly_try, Main.build_hourly_today.
  rewrite Hr, Hs.
  destruct (hourly_loop_complete float_of_str joblib_load r items w Hfeat)
    as (w' & Hloop).
  now rewrite Hloop.
Qed.

Lemma hourly_section_unsliceable (aq : value) (r : Main.hourly_arrays)
  (e : exn) (w : world) :
  Main.read_hourly aq = Ok r ->
  py_slice_items (Main.timestamps r) 24 = Raise e ->
  fst (Main.hourly_section float_of_str joblib_load aq w) = [].
Proof.
  intros Hr Hs.
  unfold Main.hourly_section, Main.hourly_try, Main.build_hourly_today.
  now rewrite Hr, Hs.
Qed.

Lemma unsized_is_unsliceable (v : value) (e : exn) :
  py_len v = Raise e -> py_slice_items v 24 = Raise TypeError.
Proof. destruct v; simpl; intros H; try discriminate; reflexivity. Qed.

Variable fetch_air_quality : float -> float -> result value.
Variable fetch_weather : float -> float -> result value.
Variable today : date.
Variable utcnow_isoformat : string.

Lemma live_prelude_inv (lat lon : float) (w w1 : world) (aq : value)
  (wth : Main.Weather) (comps : Main.AQIFeatures) (aqi3 : float) :
  Main.live_prelude float_of_str joblib_load fetch_air_quality fetch_weather
    lat lon w = (Ok (aq, wth, comps, aqi3), w1) ->
  fetch_air_quality lat lon = Ok aq /\
  (exists wx, fetch_weather lat lon = Ok wx /\
              Main.current_weather float_of_str wx = Ok wth) /\
  Main.current_features float_of_str aq = Ok comps /\
  Main.predict_3h joblib_load comps w = (Ok aqi3, w1).
Proof.
  unfold Main.live_prelude, bind, lift, ret.
  destruct (fetch_air_quality lat lon) as [aq'|] eqn:Ea; [|discriminate].
  destruct (fetch_weather lat lon) as [wx|] eqn:Ew; [|discriminate].
  destruct (Main.current_features float_of_str aq') as [comps'|] eqn:Ec;
    [|discriminate].
  destruct (Main.current_weather float_of_str wx) as [wth'|] eqn:Eh;
    [|discriminate].
  destruct (Main.predict_3h joblib_load comps' w) as [[v|] w'] eqn:Ep;
    [|discriminate].
  intros [= <- <- <- <- <-].
  split; [reflexivity|]. split; [now exists wx|]. split; [exact Ec|exact Ep].
Qed.

(** The response of a request whose first steps succeeded. *)
Lemma live_response (lat lon : float) (city : option string) (w w1 : world)
  (aq : value) (wth : Main.Weather) (comps : Main.AQIFeatures) (aqi3 : float) :
  Main.live_prelude float_of_str joblib_load fetch_air_quality fetch_weather
    lat lon w = (Ok (aq, wth, comps, aqi3), w1) ->
  let s30 := Main.forecast30_section float_of_str joblib_load aq today w1 in
  let sh := Main.hourly_section float_of_str joblib_load aq (snd s30) in
  Main.live float_of_str joblib_load fetch_air_quality fetch_weather today
    utcnow_isoformat lat lon city w
  = (Main.Returned
       {| Main.city := Main.city_or_unknown city;
          Main.lat := lat;
          Main.lon := lon;
          Main.fetched_at := utcnow_isoformat;
          Main.weather := wth;
          Main.current_components := comps;
          Main.predicted_aqi_3h := aqi3;
          Main.forecast_30d := fst s30;
          Main.hourly_aqi := fst sh |},
     snd sh).
Proof.
  intros Hpre. cbv zeta. unfold Main.live, Main.live_body, bind. rewrite Hpre.
  destruct (Main.forecast30_section float_of_str joblib_load aq today w1)
    as [forecast30 w2].
  cbn [fst snd].
  destruct (Main.hourly_section float_of_str joblib_load aq w2) as [hourly w3].
  reflexivity.
Qed.

Lemma live_failure (lat lon : float) (city : option string) (w w1 : world)
  (e : exn) :
  Main.live_prelude float_of_str joblib_load fetch_air_quality fetch_weather
    lat lon w = (Raise e, w1) ->
  Main.live float_of_str joblib_load fetch_air_quality fetch_weather today
    utcnow_isoformat lat lon city w
  = (Main.HTTPException 500 e, snd (print (ErrLive e) w1)).
Proof.
  intros Hpre. unfold Main.live, Main.live_body, bind. now rewrite Hpre.
Qed.

End HandlerFacts.

(** ** Error responses *)

Section ErrorResponses.

Variable float_of_str : string -> option float.
Variable joblib_load : loader.
Variable fetch_air_quality : float -> float -> result value.
Variable fetch_weather : float -> float -> result value.
Variable today : date.
Variable utcnow_isoformat : string.

(** X1. When the air-quality request fails, or it succeeds and the
    weather request fails, the handler answers with status 500 carrying
    that exception, prints the error once, and has not touched the model:
    no load, no cache change. *)
Theorem upstream_failure_is_500
  (lat lon : float) (city : option string) (w : world) (e : exn) :
  fetch_air_quality lat lon = Raise e \/
  (exists aq, fetch_air_quality lat lon = Ok aq /\
              fetch_weather lat lon = Raise e) ->
  exists w',
    Main.live float_of_str joblib_load fetch_air_quality fetch_weather today
      utcnow_isoformat lat lon city w = (Main.HTTPException 500 e, w') /\
    diagnostics w' = diagnostics w ++ [ErrLive e] /\
    load_log w' = load_log w /\
    main_model_cache w' = main_model_cache w /\
    next_id w' = next_id w.
Proof.
  intros H.
  assert (Main.live_prelude float_of_str joblib_load fetch_air_quality
            fetch_weather lat lon w = (Raise e, w)) as Hpre.
  { unfold Main.live_prelude, bind, lift.
    destruct H as [Ha|(aq & Ha & Hw)]; rewrite Ha; [reflexivity|].
    now rewrite Hw. }
  eexists. split; [apply live_failure; exact Hpre|].
  repeat split.
Qed.

(** X2. The handler raises only from its first steps (the two
    requests, the current features, the weather, the 3-hour prediction):
    it returns its document, carrying what those steps computed, exactly
    when they succeed, and raises [HTTPException(500)] with their
    exception otherwise.  Whatever the date and the documents, no
    exception of the two forecast blocks leaves the handler. *)
Theorem error_response_only_from_first_steps
  (lat lon : float) (city : option string) (w : world) :
  (forall body w',
     Main.live float_of_str joblib_load fetch_air_quality fetch_weather today
       utcnow_isoformat lat lon city w = (Main.Returned body, w') ->
     exists aq w1,
       Main.live_prelude float_of_str joblib_load fetch_air_quality
         fetch_weather lat lon w
       = (Ok (aq, Main.weather body, Main.current_components body,
              Main.predicted_aqi_3h body), w1)) /\
  (forall status e w',
     Main.live float_of_str joblib_load fetch_air_quality fetch_weather today
       utcnow_isoformat lat lon city w = (Main.HTTPException status e, w') ->
     status = 500 /\
     exists w1,
       Main.live_prelude float_of_str joblib_load fetch_air_quality
         fetch_weather lat lon w = (Raise e, w1) /\
       w' = snd (print (ErrLive e) w1)).
Proof.
  destruct (Main.live_prelude float_of_str joblib_load fetch_air_quality
              fetch_weather lat lon w) as [[[[[aq wth] comps] aqi3]|e0] w1] eqn:Hpre.
  - rewrite (live_response float_of_str joblib_load fetch_air_quality
               fetch_weather today utcnow_isoformat lat lon city w w1
               aq wth comps aqi3 Hpre).
    split.
    + intros body w' [= <- _]. cbn. eauto.
    + discriminate.
  - rewrite (live_failure float_of_str joblib_load fetch_air_quality
               fetch_weather today utcnow_isoformat lat lon city w w1 e0 Hpre).
    split; [discriminate|].
    intros status e w' [= <- <- <-]. split; [reflexivity|]. eauto.
Qed.

End ErrorResponses.

Lemma upstream_failure_is_500_witness :
  fst (Main.live toy_parser missing_artifact unreachable (serves wx_plain) a_day
         "2026-11-03T00:00:00" Float64.zero Float64.zero None initial_world)
  = Main.HTTPException 500 (OtherError "ConnectionError").
Proof.
  destruct (upstream_failure_is_500 toy_parser missing_artifact unreachable
              (serves wx_plain) a_day "2026-11-03T00:00:00"
              Float64.zero Float64.zero None initial_world
              (OtherError "ConnectionError"))
    as (w' & Hlive & _).
  - left. reflexivity.
  - rewrite Hlive. reflexivity.
Defined.

(** ** What the first steps require of the documents *)

(** X3. The current feature vector is obtained exactly when the
    air-quality document is an object whose ["hourly"] entry is an object
    holding, under each of the seven pollutant keys, a series with an
    element 0 (a missing key, an empty array or a null series makes the
    step raise, hence the request fail); each field is then the coercion
    of that first element and [NO] is 0.0. *)
Theorem current_features_iff
  (float_of_str : string -> option float) (aq : value)
  (comps : Main.AQIFeatures) :
  Main.current_features float_of_str aq = Ok comps <->
  exists d h,
    aq = VDict d /\ d !! "hourly" = Some (VDict h) /\
    Main.NO comps = Float64.zero /\
    first_reading_of float_of_str h "pm2_5" (Main.PM25 comps) /\
    first_reading_of float_of_str h "pm10" (Main.PM10 comps) /\
    first_reading_of float_of_str h "nitrogen_dioxide" (Main.NO2 comps) /\
    first_reading_of float_of_str h "ammonia" (Main.NH3 comps) /\
    first_reading_of float_of_str h "carbon_monoxide" (Main.CO comps) /\
    first_reading_of float_of_str h "sulphur_dioxide" (Main.SO2 comps) /\
    first_reading_of float_of_str h "ozone" (Main.O3 comps).
Proof.
  split.
  - apply current_features_inv.
  - intros (d & h & -> & Hd & Hno & H1 & H2 & H3 & H4 & H5 & H6 & H7).
    now apply (current_features_intro float_of_str d h).
Qed.

Lemma current_features_iff_witness :
  exists d h,
    aq_scenario = VDict d /\ d !! "hourly" = Some (VDict h) /\
    first_reading_of toy_parser h "ammonia" (Float64.dec 1 1).
Proof.
  assert (Main.current_features toy_parser aq_scenario = Ok scenario_features_0)
    as H by (vm_compute; reflexivity).
  apply (proj1 (current_features_iff toy_parser aq_scenario scenario_features_0))
    in H.
  destruct H as (d & h & Hd & Hh & _ & _ & _ & _ & Hnh3 & _).
  exists d, h. split; [exact Hd|]. split; [exact Hh|exact Hnh3].
Defined.

Section Weather.

Variable float_of_str : string -> option float.

Lemma current_reading_dict (d c : gmap string value) (key : string) :
  d !! "current" = Some (VDict c) ->
  Main.current_reading (VDict d) key
    = match c !! key with
      | Some x => Ok x
      | None => Raise KeyError
      end.
Proof.
  intros Hd. unfold Main.current_reading, py_getitem_str, result_bind.
  now rewrite Hd.
Qed.

Lemma current_reading_inv (wx : value) (key : string) (x : value) :
  Main.current_reading wx key = Ok x ->
  exists d c, wx = VDict d /\ d !! "current" = Some (VDict c) /\ c !! key = Some x.
Proof.
  unfold Main.current_reading, py_getitem_str, result_bind.
  destruct wx as [| | | | | |d]; try discriminate.
  destruct (d !! "current") as [cur|] eqn:Hd; [|discriminate].
  destruct cur as [| | | | | |c]; try discriminate.
  destruct (c !! key) as [v|] eqn:Hk; [|discriminate].
  intros [= <-]. exists d, c. auto.
Qed.

End Weather.

(** X4. The weather snapshot is obtained exactly when the weather
    document is an object whose ["current"] entry is an object holding
    the four keys; each field is the coercion of the stored value, so a
    null or unparsable value is reported as 0.0 while a missing key makes
    the step raise. *)
Theorem current_weather_iff
  (float_of_str : string -> option float) (wx : value) (wth : Main.Weather) :
  Main.current_weather float_of_str wx = Ok wth <->
  exists d c,
    wx = VDict d /\ d !! "current" = Some (VDict c) /\
    current_value_of float_of_str c "temperature_2m" (Main.temp_c wth) /\
    current_value_of float_of_str c "relative_humidity_2m" (Main.humidity wth) /\
    current_value_of float_of_str c "pressure_msl" (Main.pressure wth) /\
    current_value_of float_of_str c "wind_speed_10m" (Main.wind_speed wth).
Proof.
  unfold current_value_of. split.
  - intros H. unfold Main.current_weather in H.
    destruct (Main.current_reading wx "temperature_2m") as [x1|] eqn:E1;
      [|discriminate].
    destruct (current_reading_inv wx _ x1 E1) as (d & c & -> & Hd & K1).
    rewrite !(current_reading_dict d c _ Hd) in H. cbn [result_bind] in H.
    destruct (Main._safe_num float_of_str x1 Float64.zero) as [f1|] eqn:S1;
      [|discriminate]. cbn [result_bind] in H.
    destruct (c !! "relative_humidity_2m") as [x2|] eqn:K2; [|discriminate].
    cbn [result_bind] in H.
    destruct (Main._safe_num float_of_str x2 Float64.zero) as [f2|] eqn:S2;
      [|discriminate]. cbn [result_bind] in H.
    destruct (c !! "pressure_msl") as [x3|] eqn:K3; [|discriminate].
    cbn [result_bind] in H.
    destruct (Main._safe_num float_of_str x3 Float64.zero) as [f3|] eqn:S3;
      [|discriminate]. cbn [result_bind] in H.
    destruct (c !! "wind_speed_10m") as [x4|] eqn:K4; [|discriminate].
    cbn [result_bind] in H.
    destruct (Main._safe_num float_of_str x4 Float64.zero) as [f4|] eqn:S4;
      [|discriminate]. cbn [result_bind] in H.
    injection H as <-. cbn.
    exists d, c. split; [reflexivity|]. split; [exact Hd|].
    repeat split; eauto.
  - intros (d & c & -> & Hd & (x1 & K1 & S1) & (x2 & K2 & S2) & (x3 & K3 & S3)
            & (x4 & K4 & S4)).
    unfold Main.current_weather.
    rewrite !(current_reading_dict d c _ Hd), K1, K2, K3, K4.
    cbn [result_bind].
    rewrite S1. cbn [result_bind]. rewrite S2. cbn [result_bind].
    rewrite S3. cbn [result_bind]. rewrite S4. cbn [result_bind].
    destruct wth. reflexivity.
Qed.

Lemma current_weather_iff_witness :
  exists d c,
    wx_plain = VDict d /\ d !! "current" = Some (VDict c) /\
    current_value_of toy_parser c "wind_speed_10m" Float64.zero.
Proof.
  assert (Main.current_weather toy_parser wx_plain
          = Ok {| Main.temp_c := Float64.of_Z 21; Main.humidity := Float64.of_Z 40;
                  Main.pressure := Float64.of_Z 1013;
                  Main.wind_speed := Float64.zero |})
    as H by (vm_compute; reflexivity).
  apply (proj1 (current_weather_iff toy_parser wx_plain _)) in H.
  destruct H as (d & c & Hd & Hc & _ & _ & _ & Hw).
  exists d, c. split; [exact Hd|]. split; [exact Hc|exact Hw].
Defined.

(** ** The index guard *)

Lemma item_or_None_negative (l : list value) (i : Z) :
  - Z.of_nat (length l) <= i < 0 ->
  exists v,
    l !! Z.to_nat (Z.of_nat (length l) + i) = Some v /\
    Main.item_or_None (VList l) i = Ok v.
Proof.
  intros Hi. unfold Main.item_or_None. cbn [py_len result_bind].
  replace (i <? Z.of_nat (length l)) with true by (symmetry; apply Z.ltb_lt; lia).
  unfold py_getitem, seq_index.
  replace (0 <=? i) with false by (symmetry; apply Z.leb_gt; lia).
  cbn [andb].
  replace (- Z.of_nat (length l) <=? i) with true by (symmetry; apply Z.leb_le; lia).
  replace (i <? 0) with true by (symmetry; apply Z.ltb_lt; lia).
  cbn [andb].
  destruct (lookup_lt_is_Some_2 l (Z.to_nat (Z.of_nat (length l) + i)))
    as [v Hv]; [lia|].
  exists v. rewrite Hv. auto.
Qed.

Lemma item_or_None_below (l : list value) (i : Z) :
  i < - Z.of_nat (length l) ->
  Main.item_or_None (VList l) i = Raise IndexError.
Proof.
  intros Hi. unfold Main.item_or_None. cbn [py_len result_bind].
  replace (i <? Z.of_nat (length l)) with true by (symmetry; apply Z.ltb_lt; lia).
  unfold py_getitem, seq_index.
  replace (0 <=? i) with false by (symmetry; apply Z.leb_gt; lia).
  cbn [andb].
  replace (- Z.of_nat (length l) <=? i) with false by (symmetry; apply Z.leb_gt; lia).
  reflexivity.
Qed.

(** X5. The guard [vals[i] if i < len(vals) else None] protects the upper
    bound only.  On an array of length [n]: an index in [0, n) gives its
    element and an index [>= n] gives [None]; but a negative index passes
    the guard, so an index in [-n, 0) gives the element counted from the
    end and an index below [-n] raises [IndexError]. *)
Theorem index_guard_cases (l : list value) (i : Z) :
  let n := Z.of_nat (length l) in
  (0 <= i < n ->
     exists v, l !! Z.to_nat i = Some v /\ Main.item_or_None (VList l) i = Ok v) /\
  (n <= i -> Main.item_or_None (VList l) i = Ok VNone) /\
  (- n <= i < 0 ->
     exists v, l !! Z.to_nat (n + i) = Some v /\
               Main.item_or_None (VList l) i = Ok v) /\
  (i < - n -> Main.item_or_None (VList l) i = Raise IndexError).
Proof.
  cbv zeta. split; [|split; [|split]].
  - intros Hi. destruct (lookup_lt_is_Some_2 l (Z.to_nat i)) as [v Hv]; [lia|].
    exists v. split; [exact Hv|].
    rewrite item_or_None_list by lia. now rewrite Hv.
  - intros Hi. rewrite item_or_None_list by lia.
    now rewrite (proj2 (lookup_ge_None l (Z.to_nat i))) by lia.
  - apply item_or_None_negative.
  - apply item_or_None_below.
Qed.

Lemma index_guard_cases_witness :
  Main.item_or_None (VList [VInt 10; VInt 20]) (-1) = Ok (VInt 20) /\
  Main.item_or_None (VList [VInt 10; VInt 20]) 2 = Ok VNone /\
  Main.item_or_None (VList [VInt 10; VInt 20]) (-3) = Raise IndexError.
Proof.
  destruct (index_guard_cases [VInt 10; VInt 20] (-1)) as (_ & _ & Hneg & _).
  destruct (index_guard_cases [VInt 10; VInt 20] 2) as (_ & Hup & _).
  destruct (index_guard_cases [VInt 10; VInt 20] (-3)) as (_ & _ & _ & Hlow).
  split; [|split].
  - destruct Hneg as (v & Hv & Hitem); [simpl; lia|].
    rewrite Hitem. f_equal. simpl in Hv. now injection Hv as <-.
  - apply Hup. simpl. lia.
  - apply Hlow. simpl. lia.
Defined.

(** ** Empty timestamps, in general *)

Section EmptyTimestamps.

Variable float_of_str : string -> option float.
Variable joblib_load : loader.

(** When [build_features] raises, the exception is the one of the first
    guarded indexing that failed. *)
Lemma build_features_raise_inv (r : Main.hourly_arrays) (i : Z) (e : exn) :
  Main.build_features float_of_str r i = Raise e ->
  Main.item_or_None (Main.pm25_vals r) i = Raise e \/
  Main.item_or_None (Main.pm10_vals r) i = Raise e \/
  Main.item_or_None (Main.no2_vals r) i = Raise e \/
  Main.item_or_None (Main.nh3_vals r) i = Raise e \/
  Main.item_or_None (Main.co_vals r) i = Raise e \/
  Main.item_or_None (Main.so2_vals r) i = Raise e \/
  Main.item_or_None (Main.o3_vals r) i = Raise e.
Proof.
  unfold Main.build_features. intros H.
  repeat match type of H with
         | context [Main.item_or_None ?v i] =>
             destruct (Main.item_or_None v i) eqn:?; cbn [result_bind] in H;
             [|injection H as <-; tauto]
         | context [Main._safe_num float_of_str ?x ?d] =>
             let f := fresh "f" in
             let Hf := fresh "Hf" in
             destruct (safe_num_total float_of_str x d) as [f Hf];
             rewrite Hf in H; cbn [result_bind] in H
         end.
  discriminate.
Qed.

Lemma list_item_raise (v : value) (e : exn) :
  is_list v = true ->
  Main.item_or_None v (-1) = Raise e -> e = IndexError.
Proof.
  destruct v as [| | | | |l|]; try discriminate. intros _.
  destruct l as [|a l].
  - now intros [= <-].
  - destruct (item_or_None_negative (a :: l) (-1)) as (x & _ & Hx);
      [simpl length; lia|].
    rewrite Hx. discriminate.
Qed.

Lemma list_item_last (v : value) :
  is_list v = true -> v <> VList [] -> indexable v (-1).
Proof.
  destruct v as [| | | | |l|]; try discriminate. intros _ Hne.
  destruct l as [|a l]; [congruence|].
  destruct (item_or_None_negative (a :: l) (-1)) as (x & _ & Hx);
    [simpl length; lia|].
  now exists x.
Qed.

Lemma forecast30_day_features_raise (r : Main.hourly_arrays) (today : date)
  (d n : Z) (w : world) (e : exn) :
  py_len (Main.timestamps r) = Ok n ->
  Main.build_features float_of_str r (Z.min d (n - 1)) = Raise e ->
  Main.forecast30_day float_of_str joblib_load r today d w = (Raise e, w).
Proof.
  intros Hn Hf. unfold Main.forecast30_day, bind, lift. now rewrite Hn, Hf.
Qed.

Lemma empty_not_indexable : ~ indexable (VList []) (-1).
Proof. intros [x Hx]. discriminate. Qed.

End EmptyTimestamps.

(** X6. With an empty timestamps array the 30-day loop is all or
    nothing.  If the seven pollutant arrays are all non-empty it ends
    normally with 30 points, all carrying the same value: the clamped
    prediction for the last sample of each array (index -1).  If one of
    them is empty the first iteration raises [IndexError] and no point is
    produced. *)
Theorem empty_timestamps_all_or_nothing
  (float_of_str : string -> option float) (joblib_load : loader)
  (r : Main.hourly_arrays) (today : date) (w : world) :
  Main.timestamps r = VList [] ->
  pollutant_arrays r ->
  horizon_representable today ->
  (Main.pm25_vals r <> VList [] -> Main.pm10_vals r <> VList [] ->
   Main.no2_vals r <> VList [] -> Main.nh3_vals r <> VList [] ->
   Main.co_vals r <> VList [] -> Main.so2_vals r <> VList [] ->
   Main.o3_vals r <> VList [] ->
   exists pts w' last,
     Main.build_forecast_30d float_of_str joblib_load r today w = (pts, Ok tt, w') /\
     length pts = 30%nat /\
     Main.build_features float_of_str r (-1) = Ok last /\
     (forall k p, pts !! k = Some p ->
        Main.fp_predicted_aqi p
          = py_max Float64.zero
              (or_50 (Main.call_predict (resolved_model joblib_load w)
                        [Main.feature_row last])))) /\
  (Main.pm25_vals r = VList [] \/ Main.pm10_vals r = VList [] \/
   Main.no2_vals r = VList [] \/ Main.nh3_vals r = VList [] \/
   Main.co_vals r = VList [] \/ Main.so2_vals r = VList [] \/
   Main.o3_vals r = VList [] ->
   Main.build_forecast_30d float_of_str joblib_load r today w
     = ([], Raise IndexError, w)).
Proof.
  intros Hts (L1 & L2 & L3 & L4 & L5 & L6 & L7) Hday. split.
  - intros N1 N2 N3 N4 N5 N6 N7.
    assert (exists last, Main.build_features float_of_str r (-1) = Ok last)
      as [last Hlast].
    { apply build_features_ok_iff. repeat split; now apply list_item_last. }
    destruct (build_forecast_30d_complete float_of_str joblib_load r today 0 w)
      as (w' & Hloop); [now rewrite Hts| |exact Hday|].
    { intros d Hd. replace (Z.min d (0 - 1)) with (-1) by lia. eauto. }
    eexists _, w', last. split; [exact Hloop|].
    split; [now rewrite length_map, py_range_length|].
    split; [exact Hlast|].
    intros k p. rewrite lookup_map.
    destruct (py_range 30 !! k) as [d|] eqn:Ed; [|discriminate].
    assert (k < 30)%nat as Hk
      by (apply lookup_lt_Some in Ed; now rewrite py_range_length in Ed).
    rewrite (py_range_lookup 30 k Hk) in Ed. injection Ed as <-.
    cbn [option_map]. intros [= <-]. unfold forecast_point. cbn [Main.fp_predicted_aqi].
    replace (Z.min (Z.of_nat k) (0 - 1)) with (-1) by lia.
    unfold features_at. now rewrite Hlast.
  - intros Hempty.
    assert (Main.build_features float_of_str r (-1) = Raise IndexError) as Hraise.
    { destruct (Main.build_features float_of_str r (-1)) as [f|e] eqn:E.
      - exfalso.
        assert (exists f, Main.build_features float_of_str r (-1) = Ok f) as Hok
          by eauto.
        apply build_features_ok_iff in Hok.
        destruct Hok as (I1 & I2 & I3 & I4 & I5 & I6 & I7).
        destruct Hempty as [H|[H|[H|[H|[H|[H|H]]]]]]; rewrite H in *;
          now apply empty_not_indexable.
      - f_equal.
        destruct (build_features_raise_inv float_of_str r (-1) e E)
          as [H|[H|[H|[H|[H|[H|H]]]]]];
          eapply list_item_raise; try exact H; assumption. }
    unfold Main.build_forecast_30d.
    change (py_range 30) with (0 :: map Z.of_nat (seq 1 29)).
    apply for_append_first_raises.
    apply (forecast30_day_features_raise float_of_str joblib_load r today 0 0);
      [now rewrite Hts|exact Hraise].
Qed.

Lemma empty_timestamps_all_or_nothing_witness :
  exists pts w',
    Main.build_forecast_30d toy_parser missing_artifact
      scenario_without_timestamps a_day initial_world = (pts, Ok tt, w') /\
    length pts = 30%nat /\
    (forall k p, pts !! k = Some p ->
       Main.fp_predicted_aqi p = Float64.dec 7787 2).
Proof.
  destruct (empty_timestamps_all_or_nothing toy_parser missing_artifact
              scenario_without_timestamps a_day initial_world)
    as [Hall _].
  - reflexivity.
  - repeat split.
  - split; vm_compute; discriminate.
  - destruct Hall as (pts & w' & last & Hrun & Hlen & Hlast & Hval);
      try discriminate.
    exists pts, w'. split; [exact Hrun|]. split; [exact Hlen|].
    intros k p Hp. rewrite (Hval k p Hp).
    assert (last = scenario_features_1) as ->.
    { assert (Main.build_features toy_parser scenario_without_timestamps (-1)
              = Ok scenario_features_1) as H by (vm_compute; reflexivity).
      rewrite H in Hlast. now injection Hlast as <-. }
    vm_compute. reflexivity.
Defined.

(** ** Samples and days *)

(** X7. The source index is [min(d, len(timestamps) - 1)], so once the
    day offset reaches the last hourly sample the loop keeps predicting
    from that one sample: all the points from rank [len(timestamps) - 1]
    on carry the same value. *)
Theorem forecast_repeats_last_sample
  (float_of_str : string -> option float) (joblib_load : loader)
  (r : Main.hourly_arrays) (today : date) (ts : list value) (w : world) :
  Main.timestamps r = VList ts -> ts <> [] ->
  pollutant_arrays r ->
  horizon_representable today ->
  exists pts w',
    Main.build_forecast_30d float_of_str joblib_load r today w = (pts, Ok tt, w') /\
    (forall j k p q,
       (length ts - 1 <= j)%nat -> (length ts - 1 <= k)%nat ->
       pts !! j = Some p -> pts !! k = Some q ->
       Main.fp_predicted_aqi p = Main.fp_predicted_aqi q).
Proof.
  intros Hts Hne Harr Hday.
  destruct (build_forecast_30d_lists float_of_str joblib_load r today ts w
              Hts Hne Harr Hday) as (w' & Hloop).
  eexists _, w'. split; [exact Hloop|].
  assert (forall k p,
            (length ts - 1 <= k)%nat ->
            map (forecast_point float_of_str r (Z.of_nat (length ts)) today
                   (resolved_model joblib_load w)) (py_range 30) !! k = Some p ->
            Main.fp_predicted_aqi p
              = py_max Float64.zero
                  (or_50 (Main.call_predict (resolved_model joblib_load w)
                            [Main.feature_row
                               (features_at float_of_str r
                                  (Z.of_nat (length ts) - 1))]))) as Hval.
  { intros k p Hk. rewrite lookup_map.
    destruct (py_range 30 !! k) as [d|] eqn:Ed; [|discriminate].
    assert (k < 30)%nat as Hk'
      by (apply lookup_lt_Some in Ed; now rewrite py_range_length in Ed).
    rewrite (py_range_lookup 30 k Hk') in Ed. injection Ed as <-.
    cbn [option_map]. intros [= <-]. unfold forecast_point.
    cbn [Main.fp_predicted_aqi].
    replace (Z.min (Z.of_nat k) (Z.of_nat (length ts) - 1))
      with (Z.of_nat (length ts) - 1) by lia.
    reflexivity. }
  intros j k p q Hj Hk Hp Hq.
  rewrite (Hval j p Hj Hp), (Hval k q Hk Hq). reflexivity.
Qed.

Lemma forecast_repeats_last_sample_witness :
  exists pts w',
    Main.build_forecast_30d toy_parser first_feature_artifact flaky_scenario
      a_day initial_world = (pts, Ok tt, w') /\
    (forall p q, pts !! 2%nat = Some p -> pts !! 29%nat = Some q ->
       Main.fp_predicted_aqi p = Main.fp_predicted_aqi q).
Proof.
  destruct (forecast_repeats_last_sample toy_parser first_feature_artifact
              flaky_scenario a_day [VStr "t0"; VStr "t1"; VStr "t2"] initial_world)
    as (pts & w' & Hrun & Hsame).
  - reflexivity.
  - discriminate.
  - repeat split.
  - split; vm_compute; discriminate.
  - exists pts, w'. split; [exact Hrun|].
    intros p q Hp Hq. apply (Hsame 2%nat 29%nat p q); [simpl; lia..|exact Hp|exact Hq].
Defined.

(** ** The forecasts of a response *)

Section ResponseFacts.

Variable float_of_str : string -> option float.
Variable joblib_load : loader.
Variable fetch_air_quality : float -> float -> result value.
Variable fetch_weather : float -> float -> result value.
Variable today : date.
Variable utcnow_isoformat : string.

(** After the first steps the model is cached, and it stays so through
    the two forecast blocks. *)
Lemma live_success_cached (lat lon : float) (city : option string)
  (w w1 : world) (aq : value) (wth : Main.Weather)
  (comps : Main.AQIFeatures) (aqi3 : float) :
  Main.live_prelude float_of_str joblib_load fetch_air_quality fetch_weather
    lat lon w = (Ok (aq, wth, comps, aqi3), w1) ->
  exists m,
    Main.call_predict (Some m) [Main.feature_row comps] = Ok aqi3 /\
    main_model_cache w1 = Some m /\
    main_model_cache
      (snd (Main.forecast30_section float_of_str joblib_load aq today w1)) = Some m /\
    main_model_cache
      (snd (Main.hourly_section float_of_str joblib_load aq
              (snd (Main.forecast30_section float_of_str joblib_load aq today w1))))
      = Some m.
Proof.
  intros Hpre.
  destruct (live_prelude_inv float_of_str joblib_load fetch_air_quality
              fetch_weather lat lon w w1 aq wth comps aqi3 Hpre)
    as (_ & _ & _ & Hp).
  destruct (predict_3h_success joblib_load comps w w1 aqi3 Hp) as (m & Hc & Hv).
  exists m. split; [exact Hv|]. split; [exact Hc|].
  pose proof (forecast30_section_evolves float_of_str joblib_load aq today w1)
    as (_ & _ & _ & _ & H2).
  destruct (H2 m Hc) as (Hc2 & _ & _). split; [exact Hc2|].
  pose proof (hourly_section_evolves float_of_str joblib_load aq
                (snd (Main.forecast30_section float_of_str joblib_load aq today w1)))
    as (_ & _ & _ & _ & H3).
  now destruct (H3 m Hc2) as (Hc3 & _ & _).
Qed.

Lemma live_response_forecasts (lat lon : float) (city : option string)
  (w w1 : world) (aq : value) (wth : Main.Weather)
  (comps : Main.AQIFeatures) (aqi3 : float) :
  horizon_representable today ->
  Main.live_prelude float_of_str joblib_load fetch_air_quality fetch_weather
    lat lon w = (Ok (aq, wth, comps, aqi3), w1) ->
  exists h m body w',
    Main.live float_of_str joblib_load fetch_air_quality fetch_weather today
      utcnow_isoformat lat lon city w = (Main.Returned body, w') /\
    Main.read_hourly aq = Ok (arrays_of h) /\
    Main.build_features float_of_str (arrays_of h) 0 = Ok comps /\
    Main.call_predict (Some m) [Main.feature_row comps] = Ok aqi3 /\
    Main.predicted_aqi_3h body = aqi3 /\
    (forall n, py_len (Main.timestamps (arrays_of h)) = Ok n ->
       Main.forecast_30d body
         = map (forecast_point float_of_str (arrays_of h) n today (Some m))
             (py_range 30)) /\
    (forall e, py_len (Main.timestamps (arrays_of h)) = Raise e ->
       Main.forecast_30d body = [] /\ Main.hourly_aqi body = []) /\
    (forall items, py_slice_items (Main.timestamps (arrays_of h)) 24 = Ok items ->
       Main.hourly_aqi body
         = map (hourly_point float_of_str (arrays_of h) (Some m))
             (enumerate items)).
Proof.
  intros Hday Hpre.
  destruct (live_prelude_inv float_of_str joblib_load fetch_air_quality
              fetch_weather lat lon w w1 aq wth comps aqi3 Hpre)
    as (_ & _ & Hcomps & _).
  destruct (current_features_build float_of_str aq comps Hcomps)
    as (d & h & _ & _ & Hread & Hzero & Hfeat).
  destruct (live_success_cached lat lon city w w1 aq wth comps aqi3 Hpre)
    as (m & Hv & Hc1 & Hc2 & _).
  exists h, m. eexists _, _.
  split; [apply live_response; exact Hpre|]. cbn.
  split; [exact Hread|]. split; [exact Hzero|]. split; [exact Hv|].
  split; [reflexivity|].
  split; [|split].
  - intros n Hn.
    rewrite (forecast30_section_sized float_of_str joblib_load aq (arrays_of h)
               today n w1 Hday Hread Hn Hfeat).
    now rewrite (resolved_cached joblib_load w1 m Hc1).
  - intros e He. split.
    + now apply (forecast30_section_unsized float_of_str joblib_load aq
                   (arrays_of h) today e).
    + apply (hourly_section_unsliceable float_of_str joblib_load aq
               (arrays_of h) TypeError); [exact Hread|].
      now apply (unsized_is_unsliceable _ e).
  - intros items Hitems.
    rewrite (hourly_section_items float_of_str joblib_load aq (arrays_of h)
               items _ Hread Hitems).
    + now rewrite (resolved_cached joblib_load _ m Hc2).
    + intros i Hi. apply Hfeat. lia.
Qed.

(** X8. In a response whose timestamps array is not empty, the first
    hourly entry carries the first timestamp with the 3-hour prediction
    of the response, and the first forecast day is dated tomorrow and
    carries that same prediction clamped at 0.0: all three are the model's
    answer on the first sample. *)
Theorem first_entries_repeat_current_prediction
  (lat lon : float) (city : option string) (w w1 : world) (aq : value)
  (wth : Main.Weather) (comps : Main.AQIFeatures) (aqi3 : float)
  (r : Main.hourly_arrays) (t : value) (ts : list value) :
  horizon_representable today ->
  Main.live_prelude float_of_str joblib_load fetch_air_quality fetch_weather
    lat lon w = (Ok (aq, wth, comps, aqi3), w1) ->
  Main.read_hourly aq = Ok r ->
  Main.timestamps r = VList (t :: ts) ->
  exists body w',
    Main.live float_of_str joblib_load fetch_air_quality fetch_weather today
      utcnow_isoformat lat lon city w = (Main.Returned body, w') /\
    Main.predicted_aqi_3h body = aqi3 /\
    Main.hourly_aqi body !! 0%nat
      = Some {| Main.hp_time := t; Main.hp_predicted_aqi := aqi3 |} /\
    Main.forecast_30d body !! 0%nat
      = Some {| Main.fp_date :=
                  {| Datetime.toordinal := Datetime.toordinal today + 1 |};
                Main.fp_predicted_aqi := py_max Float64.zero aqi3 |}.
Proof.
  intros Hday Hpre Hr Hts.
  destruct (live_response_forecasts lat lon city w w1 aq wth comps aqi3 Hday Hpre)
    as (h & m & body & w' & Hlive & Hread & Hzero & Hv & Haqi & H30 & _ & Hh).
  rewrite Hr in Hread. injection Hread as Heq. subst r.
  exists body, w'. split; [exact Hlive|]. split; [exact Haqi|]. split.
  - rewrite (Hh (take 24 (t :: ts))) by now rewrite Hts.
    rewrite lookup_map, enumerate_lookup.
    change (take 24 (t :: ts) !! 0%nat) with (Some t).
    cbn [option_map]. unfold hourly_point, features_at. cbn [fst snd].
    change (Z.of_nat 0) with 0.
    now rewrite Hzero, Hv.
  - rewrite (H30 (Z.of_nat (length (t :: ts)))) by now rewrite Hts.
    rewrite lookup_map, (py_range_lookup 30 0) by lia. cbn [option_map].
    unfold forecast_point, features_at.
    replace (Z.min (Z.of_nat 0) (Z.of_nat (length (t :: ts)) - 1)) with 0
      by (simpl length; lia).
    now rewrite Hzero, Hv.
Qed.

(** X9. In a response, as long as hourly samples are available the
    "days" of the 30-day forecast are the hours of the hourly series:
    for every rank [k] below the number of timestamps, forecast entry [k]
    carries the value of hourly entry [k] clamped at 0.0. *)
Theorem response_day_is_clamped_hour
  (lat lon : float) (city : option string) (w w1 : world) (aq : value)
  (wth : Main.Weather) (comps : Main.AQIFeatures) (aqi3 : float)
  (r : Main.hourly_arrays) (ts : list value) :
  horizon_representable today ->
  Main.live_prelude float_of_str joblib_load fetch_air_quality fetch_weather
    lat lon w = (Ok (aq, wth, comps, aqi3), w1) ->
  Main.read_hourly aq = Ok r ->
  Main.timestamps r = VList ts ->
  exists body w',
    Main.live float_of_str joblib_load fetch_air_quality fetch_weather today
      utcnow_isoformat lat lon city w = (Main.Returned body, w') /\
    (forall k p q,
       (k < length ts)%nat ->
       Main.hourly_aqi body !! k = Some p ->
       Main.forecast_30d body !! k = Some q ->
       Main.fp_predicted_aqi q = py_max Float64.zero (Main.hp_predicted_aqi p)).
Proof.
  intros Hday Hpre Hr Hts.
  destruct (live_response_forecasts lat lon city w w1 aq wth comps aqi3 Hday Hpre)
    as (h & m & body & w' & Hlive & Hread & _ & _ & _ & H30 & _ & Hh).
  rewrite Hr in Hread. injection Hread as Heq. subst r.
  exists body, w'. split; [exact Hlive|].
  intros k p q Hk.
  rewrite (Hh (take 24 ts)) by now rewrite Hts.
  rewrite (H30 (Z.of_nat (length ts))) by now rewrite Hts.
  rewrite !lookup_map, enumerate_lookup.
  destruct (take 24 ts !! k) as [t|]; [|discriminate].
  destruct (py_range 30 !! k) as [d|] eqn:Ed; [|discriminate].
  assert (k < 30)%nat as Hk'
    by (apply lookup_lt_Some in Ed; now rewrite py_range_length in Ed).
  rewrite (py_range_lookup 30 k Hk') in Ed. injection Ed as <-.
  cbn [option_map]. intros [= <-] [= <-].
  unfold forecast_point, hourly_point.
  cbn [Main.fp_predicted_aqi Main.hp_predicted_aqi fst].
  replace (Z.min (Z.of_nat k) (Z.of_nat (length ts) - 1)) with (Z.of_nat k) by lia.
  reflexivity.
Qed.

(** X10. The sizes of the two forecasts of a response depend on the
    timestamps only.  When ["time"] is an array (the empty default when
    the key is absent included) the 30-day forecast has exactly 30 entries
    and the hourly series [min(24, len)] entries; in particular a document
    without ["time"] still gets 30 forecast days and no hourly entry.
    When ["time"] has no length (null, a number, a boolean) both are
    empty. *)
Theorem response_forecast_sizes
  (lat lon : float) (city : option string) (w w1 : world) (aq : value)
  (wth : Main.Weather) (comps : Main.AQIFeatures) (aqi3 : float)
  (r : Main.hourly_arrays) :
  horizon_representable today ->
  Main.live_prelude float_of_str joblib_load fetch_air_quality fetch_weather
    lat lon w = (Ok (aq, wth, comps, aqi3), w1) ->
  Main.read_hourly aq = Ok r ->
  exists body w',
    Main.live float_of_str joblib_load fetch_air_quality fetch_weather today
      utcnow_isoformat lat lon city w = (Main.Returned body, w') /\
    (forall ts, Main.timestamps r = VList ts ->
       length (Main.forecast_30d body) = 30%nat /\
       length (Main.hourly_aqi body) = Nat.min 24 (length ts)) /\
    (forall e, py_len (Main.timestamps r) = Raise e ->
       Main.forecast_30d body = [] /\ Main.hourly_aqi body = []).
Proof.
  intros Hday Hpre Hr.
  destruct (live_response_forecasts lat lon city w w1 aq wth comps aqi3 Hday Hpre)
    as (h & m & body & w' & Hlive & Hread & _ & _ & _ & H30 & Hnone & Hh).
  rewrite Hr in Hread. injection Hread as Heq. subst r.
  exists body, w'. split; [exact Hlive|]. split; [|exact Hnone].
  intros ts Hts. split.
  - rewrite (H30 (Z.of_nat (length ts))) by now rewrite Hts.
    now rewrite length_map, py_range_length.
  - rewrite (Hh (take 24 ts)) by now rewrite Hts.
    now rewrite length_map, enumerate_length, length_take.
Qed.

End ResponseFacts.

Lemma scenario_prelude :
  Main.live_prelude toy_parser missing_artifact (serves aq_scenario)
    (serves wx_plain) Float64.zero Float64.zero initial_world
  = (Ok (aq_scenario, weather_plain, scenario_features_0, Float64.dec 6466 2),
     after_scenario_prelude).
Proof.
  unfold after_scenario_prelude.
  assert (fst (Main.live_prelude toy_parser missing_artifact (serves aq_scenario)
                 (serves wx_plain) Float64.zero Float64.zero initial_world)
          = Ok (aq_scenario, weather_plain, scenario_features_0,
                Float64.dec 6466 2)) as Hfst by (vm_compute; reflexivity).
  rewrite <- Hfst. apply surjective_pairing.
Qed.

Lemma scenario_read_hourly : Main.read_hourly aq_scenario = Ok scenario.
Proof. vm_compute. reflexivity. Qed.

Lemma a_day_horizon : horizon_representable a_day.
Proof. split; vm_compute; discriminate. Qed.


Lemma first_entries_repeat_current_prediction_witness :
  exists body w',
    Main.live toy_parser missing_artifact (serves aq_scenario) (serves wx_plain)
      a_day "2026-11-03T00:00:00" Float64.zero Float64.zero None initial_world
      = (Main.Returned body, w') /\
    Main.predicted_aqi_3h body = Float64.dec 6466 2 /\
    Main.hourly_aqi body !! 0%nat
      = Some {| Main.hp_time := VStr "t0";
                Main.hp_predicted_aqi := Float64.dec 6466 2 |} /\
    Main.forecast_30d body !! 0%nat
      = Some {| Main.fp_date := {| Datetime.toordinal := 739923 + 1 |};
                Main.fp_predicted_aqi := py_max Float64.zero (Float64.dec 6466 2) |}.
Proof.
  exact (first_entries_repeat_current_prediction toy_parser missing_artifact
           (serves aq_scenario) (serves wx_plain) a_day "2026-11-03T00:00:00"
           Float64.zero Float64.zero None initial_world after_scenario_prelude
           aq_scenario weather_plain scenario_features_0 (Float64.dec 6466 2)
           scenario (VStr "t0") [VStr "t1"]
           a_day_horizon scenario_prelude scenario_read_hourly eq_refl).
Defined.

Lemma response_day_is_clamped_hour_witness :
  exists body w',
    Main.live toy_parser missing_artifact (serves aq_scenario) (serves wx_plain)
      a_day "2026-11-03T00:00:00" Float64.zero Float64.zero None initial_world
      = (Main.Returned body, w') /\
    (forall k p q,
       (k < 2)%nat ->
       Main.hourly_aqi body !! k = Some p ->
       Main.forecast_30d body !! k = Some q ->
       Main.fp_predicted_aqi q = py_max Float64.zero (Main.hp_predicted_aqi p)).
Proof.
  exact (response_day_is_clamped_hour toy_parser missing_artifact
           (serves aq_scenario) (serves wx_plain) a_day "2026-11-03T00:00:00"
           Float64.zero Float64.zero None initial_world after_scenario_prelude
           aq_scenario weather_plain scenario_features_0 (Float64.dec 6466 2)
           scenario [VStr "t0"; VStr "t1"]
           a_day_horizon scenario_prelude scenario_read_hourly eq_refl).
Defined.

Lemma response_forecast_sizes_witness :
  exists body w',
    Main.live toy_parser missing_artifact (serves aq_scenario) (serves wx_plain)
      a_day "2026-11-03T00:00:00" Float64.zero Float64.zero None initial_world
      = (Main.Returned body, w') /\
    length (Main.forecast_30d body) = 30%nat /\
    length (Main.hourly_aqi body) = 2%nat.
Proof.
  destruct (response_forecast_sizes toy_parser missing_artifact
              (serves aq_scenario) (serves wx_plain) a_day "2026-11-03T00:00:00"
              Float64.zero Float64.zero None initial_world after_scenario_prelude
              aq_scenario weather_plain scenario_features_0 (Float64.dec 6466 2)
              scenario a_day_horizon scenario_prelude scenario_read_hourly)
    as (body & w' & Hlive & Hsizes & _).
  exists body, w'. split; [exact Hlive|].
  exact (Hsizes [VStr "t0"; VStr "t1"] eq_refl).
Defined.

(** ** The model across requests *)

(** X11. Whatever the request and however it ends, the process state only
    moves forward: the handler never touches the cache of [model_loader]
    (the imported loader is shadowed and never runs), never removes a
    recorded load or a printed line, never reuses an object identity, and
    a model cached by [main] before the request is still the cached model
    after it, with no load and no allocation in between. *)
Theorem handler_state_moves_forward
  (float_of_str : string -> option float) (joblib_load : loader)
  (fetch_air_quality fetch_weather : float -> float -> result value)
  (today : date) (utcnow_isoformat : string)
  (lat lon : float) (city : option string) (w : world) :
  evolves w
    (snd (Main.live float_of_str joblib_load fetch_air_quality fetch_weather
            today utcnow_isoformat lat lon city w)).
Proof. apply live_evolves. Qed.

(** X12. A request whose handler returns its document leaves a model cached, and every
    later request, whatever its parameters, its upstream documents and
    its outcome, keeps that same object cached and performs no
    [joblib.load]: the model file is read by successful requests at most
    once per process. *)
Theorem successful_request_caches_model
  (float_of_str : string -> option float) (joblib_load : loader)
  (fetch_air_quality fetch_weather : float -> float -> result value)
  (today : date) (utcnow_isoformat : string)
  (lat lon : float) (city : option string) (w w' : world) (body : Main.Response) :
  Main.live float_of_str joblib_load fetch_air_quality fetch_weather today
    utcnow_isoformat lat lon city w = (Main.Returned body, w') ->
  exists m,
    main_model_cache w' = Some m /\
    Main.call_predict (Some m) [Main.feature_row (Main.current_components body)]
      = Ok (Main.predicted_aqi_3h body) /\
    (forall fetch_air_quality' fetch_weather' today' utcnow' lat' lon' city',
       let w'' :=
         snd (Main.live float_of_str joblib_load fetch_air_quality' fetch_weather'
                today' utcnow' lat' lon' city' w') in
       main_model_cache w'' = Some m /\
       load_log w'' = load_log w' /\
       next_id w'' = next_id w').
Proof.
  intros Hlive.
  destruct (Main.live_prelude float_of_str joblib_load fetch_air_quality
              fetch_weather lat lon w) as [[[[[aq wth] comps] aqi3]|e0] w1] eqn:Hpre.
  - rewrite (live_response float_of_str joblib_load fetch_air_quality
               fetch_weather today utcnow_isoformat lat lon city w w1
               aq wth comps aqi3 Hpre) in Hlive.
    injection Hlive as <- <-. cbn.
    destruct (live_success_cached float_of_str joblib_load fetch_air_quality
                fetch_weather today lat lon city w w1 aq wth comps aqi3 Hpre)
      as (m & Hv & _ & _ & Hc).
    exists m. split; [exact Hc|]. split; [exact Hv|].
    intros fa' fw' today' now' lat' lon' city'.
    cbv zeta.
    match goal with
    | |- context [Main.live _ _ _ _ _ _ _ _ _ ?v] =>
        pose proof (live_evolves float_of_str joblib_load fa' fw' today' now'
                      lat' lon' city' v) as (_ & _ & _ & _ & Hkeep)
    end.
    exact (Hkeep m Hc).
  - rewrite (live_failure float_of_str joblib_load fetch_air_quality
               fetch_weather today utcnow_isoformat lat lon city w w1 e0 Hpre)
      in Hlive.
    discriminate.
Qed.

Lemma successful_request_caches_model_witness :
  exists m,
    main_model_cache
      (snd (Main.live toy_parser missing_artifact (serves aq_scenario)
              (serves wx_plain) a_day "2026-11-03T00:00:00"
              Float64.zero Float64.zero None initial_world)) = Some m /\
    Main.call_predict (Some m) [Main.feature_row scenario_features_0]
      = Ok (Float64.dec 6466 2).
Proof.
  pose proof (live_response toy_parser missing_artifact (serves aq_scenario)
                (serves wx_plain) a_day "2026-11-03T00:00:00"
                Float64.zero Float64.zero None initial_world
                after_scenario_prelude aq_scenario weather_plain
                scenario_features_0 (Float64.dec 6466 2) scenario_prelude)
    as Hlive.
  cbv zeta in Hlive.
  destruct (successful_request_caches_model _ _ _ _ _ _ _ _ _ _ _ _ Hlive)
    as (m & Hc & Hv & _).
  exists m. rewrite Hlive. split; [exact Hc|exact Hv].
Defined.

Lemma fallback_call_predict (m : Model) (f : Main.AQIFeatures) :
  model_predict m = DummyModel_predict ->
  Main.call_predict (Some m) [Main.feature_row f] = Ok (fallback_value f).
Proof.
  intros Hm. unfold Main.call_predict. rewrite Hm.
  unfold Main.feature_row. rewrite DummyModel_predict_eight. reflexivity.
Qed.

(** X13. When [load_model()] resolves to the fallback model, no
    prediction fails and the constant 50.0 is never substituted: for
    every feature vector, infinities and NaN included, [predict_3h]
    returns [((PM25 + PM10) + (NO2 + NO)) + ((NH3 + CO) + (SO2 + O3))]
    added to 0.0, times 0.1, plus 50; every hourly entry carries that
    value for the features of its own index, and every 30-day point its
    clamp at 0.0 for the features of its source index. *)
Theorem fallback_model_never_fails
  (float_of_str : string -> option float) (joblib_load : loader)
  (w : world) (m : Model) :
  resolved_model joblib_load w = Some m ->
  model_predict m = DummyModel_predict ->
  (forall features,
     fst (Main.predict_3h joblib_load features w)
       = Ok (fallback_value features)) /\
  (forall r ts,
     Main.timestamps r = VList ts -> pollutant_arrays r ->
     exists pts w',
       Main.build_hourly_today float_of_str joblib_load r w = (pts, Ok tt, w') /\
       length pts = Nat.min 24 (length ts) /\
       (forall k p, pts !! k = Some p ->
          exists f,
            Main.build_features float_of_str r (Z.of_nat k) = Ok f /\
            Main.hp_predicted_aqi p = fallback_value f)) /\
  (forall r ts today,
     Main.timestamps r = VList ts -> ts <> [] -> pollutant_arrays r ->
     horizon_representable today ->
     exists pts w',
       Main.build_forecast_30d float_of_str joblib_load r today w
         = (pts, Ok tt, w') /\
       length pts = 30%nat /\
       (forall k p, pts !! k = Some p ->
          exists f,
            Main.build_features float_of_str r
              (Z.min (Z.of_nat k) (Z.of_nat (length ts) - 1)) = Ok f /\
            Main.fp_predicted_aqi p = py_max Float64.zero (fallback_value f))).
Proof.
  intros Hres Hm. split; [|split].
  - intros features.
    destruct (predict_3h_outcome joblib_load features w) as (w' & Hp & _).
    rewrite Hp, Hres. cbn [fst]. now apply fallback_call_predict.
  - intros r ts Hts Harr.
    destruct (build_hourly_today_lists float_of_str joblib_load r ts w Hts Harr)
      as (w' & Hloop).
    eexists _, w'. split; [exact Hloop|].
    split; [now rewrite length_map, enumerate_length, length_take|].
    intros k p. rewrite lookup_map, enumerate_lookup.
    destruct (take 24 ts !! k) as [t|]; [|discriminate].
    cbn [option_map]. intros [= <-].
    exists (features_at float_of_str r (Z.of_nat k)).
    split; [apply build_features_lists; [exact Harr|lia]|].
    unfold hourly_point. cbn [Main.hp_predicted_aqi fst].
    now rewrite Hres, (fallback_call_predict m _ Hm).
  - intros r ts today Hts Hne Harr Hday.
    destruct (build_forecast_30d_lists float_of_str joblib_load r today ts w
                Hts Hne Harr Hday) as (w' & Hloop).
    eexists _, w'. split; [exact Hloop|].
    split; [now rewrite length_map, py_range_length|].
    intros k p. rewrite lookup_map.
    destruct (py_range 30 !! k) as [d|] eqn:Ed; [|discriminate].
    assert (k < 30)%nat as Hk
      by (apply lookup_lt_Some in Ed; now rewrite py_range_length in Ed).
    rewrite (py_range_lookup 30 k Hk) in Ed. injection Ed as <-.
    cbn [option_map]. intros [= <-].
    exists (features_at float_of_str r
              (Z.min (Z.of_nat k) (Z.of_nat (length ts) - 1))).
    split.
    + apply build_features_lists; [exact Harr|].
      destruct ts; [congruence|]. simpl length. lia.
    + unfold forecast_point. cbn [Main.fp_predicted_aqi].
      now rewrite Hres, (fallback_call_predict m _ Hm).
Qed.

Lemma fallback_model_never_fails_witness :
  fst (Main.predict_3h missing_artifact scenario_features_1 initial_world)
    = Ok (Float64.dec 7787 2) /\
  exists pts w',
    Main.build_hourly_today toy_parser missing_artifact scenario initial_world
      = (pts, Ok tt, w') /\
    (forall p, pts !! 0%nat = Some p ->
       Main.hp_predicted_aqi p = Float64.dec 6466 2).
Proof.
  destruct (fallback_model_never_fails toy_parser missing_artifact initial_world
              (DummyModel 0) eq_refl eq_refl) as (Hone & Hhourly & _).
  split.
  - rewrite Hone. vm_compute. reflexivity.
  - destruct (Hhourly scenario [VStr "t0"; VStr "t1"] eq_refl)
      as (pts & w' & Hrun & _ & Hval); [repeat split|].
    exists pts, w'. split; [exact Hrun|].
    intros p Hp. destruct (Hval 0%nat p Hp) as (f & Hf & ->).
    assert (Main.build_features toy_parser scenario 0 = Ok scenario_features_0)
      as H0 by (vm_compute; reflexivity).
    change (Z.of_nat 0) with 0 in Hf. rewrite H0 in Hf. injection Hf as <-.
    vm_compute. reflexivity.
Defined.

(** X14. The two modules keep separate caches.  In a process where
    neither has a model yet and the file loads, resolving through
    [model_loader.load_model] and then through [main.load_model] reads
    the file twice and yields two distinct objects with the same
    behaviour; neither call changes the other module's cache. *)
Theorem loaders_use_separate_caches
  (joblib_load : loader) (p : string) (w : world)
  (f : list (list float) -> result (list float)) :
  loader_model_cache w = None ->
  main_model_cache w = None ->
  joblib_load p = Ok (Some f) ->
  exists m1 m2 w1 w2,
    ModelLoader.load_model joblib_load p w = (Ok (Some m1), w1) /\
    Main.load_model joblib_load p w1 = (Ok (Some m2), w2) /\
    main_model_cache w1 = None /\
    loader_model_cache w2 = Some m1 /\
    main_model_cache w2 = Some m2 /\
    model_id m1 <> model_id m2 /\
    model_predict m1 = f /\ model_predict m2 = f /\
    load_log w2 = load_log w ++ [p; p].
Proof.
  intros Hlc Hmc Hl.
  assert (ModelLoader.load_model joblib_load p w =
            (Ok (Some {| model_id := next_id w; model_predict := f |}),
             with_loader_cache (Some {| model_id := next_id w; model_predict := f |})
               (with_fresh_id (with_load_logged p w)))) as H1.
  { unfold ModelLoader.load_model, bind, try_except_M, ModelLoader.get_cache,
      call_joblib_load, ModelLoader.set_cache. simpl. rewrite Hlc, Hl. reflexivity. }
  eexists _, _, _, _. split; [exact H1|].
  split; [apply main_load_object; [exact Hmc|exact Hl]|].
  cbn. repeat split; try reflexivity.
  - exact Hmc.
  - lia.
  - now rewrite <- app_assoc.
Qed.

Lemma loaders_use_separate_caches_witness :
  exists m1 m2 w1 w2,
    ModelLoader.load_model first_feature_artifact default_model_path initial_world
      = (Ok (Some m1), w1) /\
    Main.load_model first_feature_artifact default_model_path w1
      = (Ok (Some m2), w2) /\
    model_id m1 <> model_id m2 /\
    load_log w2 = [default_model_path; default_model_path].
Proof.
  destruct (loaders_use_separate_caches first_feature_artifact default_model_path
              initial_world first_feature_model eq_refl eq_refl eq_refl)
    as (m1 & m2 & w1 & w2 & H1 & H2 & _ & _ & _ & Hid & _ & _ & Hlog).
  exists m1, m2, w1, w2. split; [exact H1|]. split; [exact H2|].
  split; [exact Hid|exact Hlog].
Defined.
